(** * DeepSaber dataset construction: [process/api.py] and [utils/types.py]

    A shallow embedding of the dataset pipeline of [src/process/api.py]
    (song discovery, split slicing, normalisation statistics, column
    normalisation, post-processing) together with the configuration
    defaults of [src/utils/types.py], and the properties of that code.

    Conventions.
    - A Python [float] is an IEEE 754 binary64 value, taken from the
      standard library's [spec_float] with [prec = 53], [emax = 1024].
    - A raised exception is an explicit outcome; files that the code
      reads and writes are fields of an explicit [World].
    - Functions imported from modules outside [process/api.py]
      ([process.compute], [utils.functions], gensim, pandas' [concat])
      are parameters, collected in the record [Externals]. *)

From Stdlib Require Import ZArith Lia Bool Ascii String Floats.
From stdpp Require Import gmap strings list pretty.

Open Scope Z_scope.

(** ** Exceptions *)

Inductive exn : Type :=
| OverflowError | ValueError | TypeError | KeyError
| FileNotFoundError | AssertionError.

(** The outcome of a call: a returned value or a raised exception. *)
Inductive result (A : Type) : Type :=
| Ok (a : A)
| Raise (e : exn).
Arguments Ok {A} a.
Arguments Raise {A} e.

Definition rbind {A B} (r : result A) (k : A -> result B) : result B :=
  match r with
  | Ok a => k a
  | Raise e => Raise e
  end.

Fixpoint rmapM {A B} (f : A -> result B) (l : list A) : result (list B) :=
  match l with
  | [] => Ok []
  | x :: rest =>
      rbind (f x) (fun y => rbind (rmapM f rest) (fun ys => Ok (y :: ys)))
  end.

(** ** Python floats *)

Module PyFloat.

Definition pyfloat := spec_float.

Definition zero : pyfloat := S754_zero false.

(** The binary64 values that Python reads for the literals below
    (nearest double to the decimal). *)
Definition lit_0_8 : pyfloat := S754_finite false 7205759403792794 (-53).
Definition lit_0_9 : pyfloat := S754_finite false 8106479329266893 (-53).
Definition lit_0_99 : pyfloat := S754_finite false 8917127262193582 (-53).
Definition lit_1e_6 : pyfloat := S754_finite false 4722366482869645 (-72).

(** [math.isfinite] / [np.isfinite] on a float. *)
Definition is_finite (x : pyfloat) : bool :=
  match x with
  | S754_zero _ | S754_finite _ _ _ => true
  | S754_infinity _ | S754_nan => false
  end.

(** [x * y] on two floats. *)
Definition float_mul (x y : pyfloat) : pyfloat := SFmul 53 1024 x y.

(** The int -> float conversion of a mixed [int * float] product and of
    [math.isfinite(int)]: correctly rounded; an int too large for a
    double raises OverflowError. *)
Definition float_of_int (n : Z) : result pyfloat :=
  match binary_normalize 53 1024 n 0 false with
  | S754_infinity _ => Raise OverflowError
  | f => Ok f
  end.

(** [int(x)] on a float: truncation towards zero; OverflowError on an
    infinity, ValueError on NaN. *)
Definition int_of_float (x : pyfloat) : result Z :=
  match x with
  | S754_zero _ => Ok 0
  | S754_finite s m e =>
      let a := if 0 <=? e then Z.pos m * 2 ^ e else Z.pos m / 2 ^ (- e) in
      Ok (if s then - a else a)
  | S754_infinity _ => Raise OverflowError
  | S754_nan => Raise ValueError
  end.

(** [int(total * fraction)] with [total] an int and [fraction] a float. *)
Definition int_times_float (total : Z) (fraction : pyfloat) : result Z :=
  rbind (float_of_int total) (fun x => int_of_float (float_mul x fraction)).

(** [x.astype('float16')] on one element: rounding to binary16. *)
Definition astype_float16 (x : pyfloat) : pyfloat :=
  match x with
  | S754_finite s m e => binary_round 11 16 s m e
  | _ => x
  end.

(** Proof-side description of rounding: [m / 2^k] rounded to the nearest
    integer, ties to even. *)
Definition rne (m k : Z) : Z :=
  if k <=? 0 then m
  else
    let q := m / 2 ^ k in
    if Z.testbit m (k - 1)
    then if (m mod 2 ^ (k - 1) =? 0) && Z.even q then q else q + 1
    else q.

End PyFloat.

(** ** Python list slicing *)

Module PyList.

(** Index adjustment of [l[lo:hi]] (step 1): negative indices count from
    the end, everything is clamped to [0, len]. *)
Definition adjust_index (len i : Z) : Z :=
  if i <? 0 then Z.max 0 (i + len) else Z.min i len.

Definition slice {A} (l : list A) (lo hi : Z) : list A :=
  let n := Z.of_nat (length l) in
  let a := adjust_index n lo in
  let b := adjust_index n hi in
  firstn (Z.to_nat (b - a)) (skipn (Z.to_nat a) l).

End PyList.

(** ** Song discovery: [create_song_list] *)

Module Discovery.

(** A directory as [os.walk] lists it: its own name, the names of its
    non-directory entries, and its sub-directories. *)
#[warnings="-register-all"]
Inductive tree : Type :=
| Dir (name : string) (files : list string) (subdirs : list tree).

Definition dir_name (t : tree) : string :=
  match t with Dir name _ _ => name end.

Definition lower_ascii (c : ascii) : ascii :=
  let n := nat_of_ascii c in
  if (65 <=? n)%nat && (n <=? 90)%nat then ascii_of_nat (n + 32) else c.

(** [name.lower()].  File names are byte strings (UTF-8); only the ASCII
    letters are changed.  For the comparison against the two ASCII marker
    names this agrees with Python's Unicode lowering: the only non-ASCII
    character whose lower case is a single ASCII letter is the Kelvin
    sign (giving k), and neither marker contains a k. *)
Fixpoint lower (s : string) : string :=
  match s with
  | EmptyString => EmptyString
  | String c r => String (lower_ascii c) (lower r)
  end.

(** [os.path.join(top, name)] on POSIX paths. *)
Definition path_join (top name : string) : string :=
  match name with
  | String "/"%char _ => name
  | _ =>
      match top with
      | EmptyString => name
      | _ =>
          if String.eqb (substring (String.length top - 1) 1 top) "/"
          then (top +:+ name)%string
          else (top +:+ "/" +:+ name)%string
      end
  end.

(** [os.walk(top, topdown=False)] on the directory [t] found at path
    [top]: every directory of the tree, children before their parent, as
    triples (root, dirs, files). *)
Fixpoint walk (top : string) (t : tree) : list (string * list string * list string) :=
  match t with
  | Dir _ files subdirs =>
      (fix walk_subdirs (l : list tree) :=
         match l with
         | [] => []
         | sub :: rest => walk (path_join top (dir_name sub)) sub ++ walk_subdirs rest
         end) subdirs
      ++ [(top, map dir_name subdirs, files)]
  end.

Definition indicators : list string := ["info.dat"; "info.json"]%string.

(** [bool(indicators.intersection(set([name.lower() for name in files])))] *)
Definition has_indicator (files : list string) : bool :=
  existsb (fun name => existsb (String.eqb (lower name)) indicators) files.

(** The loop of [create_song_list]: [songs.append(root)] for every walked
    directory that holds an indicator file. *)
Definition create_song_list_loop
    (steps : list (string * list string * list string)) (songs : list string)
  : list string :=
  fold_left
    (fun songs '(root, _, files) =>
       if has_indicator files then songs ++ [root] else songs)
    steps songs.

Definition create_song_list (path : string) (t : tree) : list string :=
  create_song_list_loop (walk path t) [].



End Discovery.

(** ** Tables: cells, columns, numpy values *)

Module Frame.
Import PyFloat.

(** One cell of a table column. *)
Inductive cell : Type :=
| CFloat (x : pyfloat)          (* a Python float *)
| CInt (n : Z)                  (* a Python int *)
| CArray (xs : list pyfloat)    (* a one-dimensional numpy array *)
| CStr (s : string).            (* a string, as in the word column *)

(** A [pd.DataFrame]: the number of rows and, per column name, one cell
    for every row. *)
Record DataFrame : Type := {
  nrows : nat;
  columns : gmap string (list cell)
}.

(** [df[col]]: KeyError on a missing column. *)
Definition get_column (df : DataFrame) (col : string) : result (list cell) :=
  match columns df !! col with
  | Some c => Ok c
  | None => Raise KeyError
  end.

(** [df[col] = values] *)
Definition set_column (df : DataFrame) (col : string) (values : list cell)
  : DataFrame :=
  {| nrows := nrows df; columns := <[col := values]> (columns df) |}.

(** [x[~np.isfinite(x)] = 0.0] on one array element. *)
Definition zero_if_infinite (v : pyfloat) : pyfloat :=
  if is_finite v then v else zero.

(** [infinite2zero].  The first branch is the numpy one (the array is
    updated in place and returned); the others are [math.isfinite] on a
    float, on an int (converted to a float first) and on a string. *)
Definition infinite2zero (x : cell) : result cell :=
  match x with
  | CArray xs => Ok (CArray (map zero_if_infinite xs))
  | CFloat v => if negb (is_finite v) then Ok (CFloat zero) else Ok (CFloat v)
  | CInt n => rbind (float_of_int n) (fun v =>
              if negb (is_finite v) then Ok (CFloat zero) else Ok (CInt n))
  | CStr _ => Raise TypeError
  end.






(** A numpy value that arithmetic produces: a float scalar or a
    one-dimensional float array. *)
Inductive ndvalue : Type :=
| NScalar (x : pyfloat)
| NVector (xs : list pyfloat).

Definition nd_of_cell (c : cell) : result ndvalue :=
  match c with
  | CFloat x => Ok (NScalar x)
  | CInt n => rbind (float_of_int n) (fun x => Ok (NScalar x))
  | CArray xs => Ok (NVector xs)
  | CStr _ => Raise TypeError
  end.

Definition cell_of_nd (v : ndvalue) : cell :=
  match v with
  | NScalar x => CFloat x
  | NVector xs => CArray xs
  end.

(** The scalar arithmetic numpy ends up using.  Which precision each
    operation rounds to follows from numpy's dtype promotion and is left
    open: every property below holds for any choice. *)
Record arith : Type := {
  fadd : pyfloat -> pyfloat -> pyfloat;
  fsub : pyfloat -> pyfloat -> pyfloat;
  fmul : pyfloat -> pyfloat -> pyfloat;
  fdiv : pyfloat -> pyfloat -> pyfloat;
  fsqrt : pyfloat -> pyfloat;
  fcast : pyfloat -> pyfloat;      (* conversion to the reduction dtype *)
  fcount : nat -> pyfloat          (* a row count as a float *)
}.

(** Two instances: every operation rounds its exact result to binary32,
    respectively to binary64. *)
Definition round_to (prec emax : Z) (x : pyfloat) : pyfloat :=
  match x with
  | S754_finite s m e => binary_round prec emax s m e
  | _ => x
  end.

Definition ieee_arith (prec emax : Z) : arith := {|
  fadd := SFadd prec emax;
  fsub := SFsub prec emax;
  fmul := SFmul prec emax;
  fdiv := SFdiv prec emax;
  fsqrt := SFsqrt prec emax;
  fcast := round_to prec emax;
  fcount := fun n => binary_normalize prec emax (Z.of_nat n) 0 false
|}.

Definition arith_float32 : arith := ieee_arith 24 128.
Definition arith_float64 : arith := ieee_arith 53 1024.

(** Elementwise binary operation with numpy broadcasting on
    one-dimensional operands. *)
Definition broadcast (f : pyfloat -> pyfloat -> pyfloat) (a b : ndvalue)
  : result ndvalue :=
  match a, b with
  | NScalar x, NScalar y => Ok (NScalar (f x y))
  | NScalar x, NVector ys => Ok (NVector (map (f x) ys))
  | NVector xs, NScalar y => Ok (NVector (map (fun x => f x y) xs))
  | NVector xs, NVector ys =>
      if (length xs =? length ys)%nat then Ok (NVector (zip_with f xs ys))
      else match xs, ys with
           | [x], _ => Ok (NVector (map (f x) ys))
           | _, [y] => Ok (NVector (map (fun x => f x y) xs))
           | _, _ => Raise ValueError
           end
  end.

(** [np.stack(values)]: all cells of a column as rows of equal shape.
    The flag tells whether the rows are scalars. *)
Definition stack_row (c : cell) : result (bool * list pyfloat) :=
  rbind (nd_of_cell c) (fun v =>
    match v with
    | NScalar x => Ok (true, [x])
    | NVector xs => Ok (false, xs)
    end).

Definition same_shape (a b : bool * list pyfloat) : bool :=
  Bool.eqb (fst a) (fst b) && (length (snd a) =? length (snd b))%nat.

Definition np_stack (values : list cell)
  : result (bool * list pyfloat * list (list pyfloat)) :=
  rbind (rmapM stack_row values) (fun rows =>
    match rows with
    | [] => Raise ValueError
    | r :: rest =>
        if forallb (same_shape r) rest
        then Ok (fst r, snd r, map snd rest)
        else Raise ValueError
    end).

Definition unstack (scalar : bool) (xs : list pyfloat) : ndvalue :=
  match scalar, xs with
  | true, [x] => NScalar x
  | _, _ => NVector xs
  end.

(** [add.reduce] along axis 0 in the reduction dtype: the rows are
    accumulated in order, starting from the first one. *)
Definition sum_axis0 (A : arith) (first : list pyfloat)
    (rest : list (list pyfloat)) : list pyfloat :=
  fold_left (fun acc row => zip_with (fadd A) acc (map (fcast A) row))
            rest (map (fcast A) first).

(** [arr.mean(0, dtype=np.float32)] *)
Definition mean_axis0 (A : arith) (first : list pyfloat)
    (rest : list (list pyfloat)) : list pyfloat :=
  map (fun s => fdiv A s (fcount A (S (length rest)))) (sum_axis0 A first rest).

(** [arr.std(0, dtype=np.float32, ddof=ddof)]: deviations from the mean,
    squared, summed, divided by [N - ddof], square root. *)
Definition std_axis0 (A : arith) (ddof : nat) (first : list pyfloat)
    (rest : list (list pyfloat)) : list pyfloat :=
  let arrmean := mean_axis0 A first rest in
  let square row :=
    map (fun d => fmul A d d) (zip_with (fsub A) row arrmean) in
  map (fun s => fsqrt A (fdiv A s (fcount A (S (length rest) - ddof))))
      (sum_axis0 A (square first) (map square rest)).

(** [np.stack(values).mean(0, dtype=np.float32)] *)
Definition column_mean (A : arith) (values : list cell) : result ndvalue :=
  rbind (np_stack values) (fun '(scalar, first, rest) =>
    Ok (unstack scalar (mean_axis0 A first rest))).

(** [np.stack(values).std(0, dtype=np.float32)]; numpy's default is
    [ddof = 0]. *)
Definition column_std (A : arith) (values : list cell) : result ndvalue :=
  rbind (np_stack values) (fun '(scalar, first, rest) =>
    Ok (unstack scalar (std_axis0 A 0 first rest))).

(** The persisted statistics: [pd.DataFrame({'mean': mean, 'std': std})],
    both indexed by column name. *)
Record Stats : Type := {
  stat_mean : gmap string ndvalue;
  stat_std : gmap string ndvalue
}.

(** [stats[field][col]]: KeyError on a missing label. *)
Definition stat_lookup (field : gmap string ndvalue) (col : string)
  : result ndvalue :=
  match field !! col with
  | Some v => Ok v
  | None => Raise KeyError
  end.

(** The lambda of [normalize_columns]:
    [(x - stats['mean'][col]) / (stats['std'][col] + 1e-6)]. *)
Definition normalize_cell (A : arith) (stats : Stats) (col : string) (x : cell)
  : result cell :=
  rbind (stat_lookup (stat_mean stats) col) (fun mean =>
  rbind (nd_of_cell x) (fun v =>
  rbind (broadcast (fsub A) v mean) (fun num =>
  rbind (stat_lookup (stat_std stats) col) (fun std =>
  rbind (broadcast (fadd A) std (NScalar lit_1e_6)) (fun den =>
  rbind (broadcast (fdiv A) num den) (fun q =>
  Ok (cell_of_nd q))))))).

(** [df[col] = df[col].apply(f)] *)
Definition apply_column (f : cell -> result cell) (col : string)
    (df : DataFrame) : result DataFrame :=
  rbind (get_column df col) (fun values =>
  rbind (rmapM f values) (fun values' =>
  Ok (set_column df col values'))).

(** A [for col in cols: df[col] = df[col].apply(f col)] loop. *)
Fixpoint apply_columns (f : string -> cell -> result cell)
    (cols : list string) (df : DataFrame) : result DataFrame :=
  match cols with
  | [] => Ok df
  | col :: rest =>
      rbind (apply_column (f col) col df) (apply_columns f rest)
  end.

(** [{col: reduce(df[col].values) for col in cols}] *)
Fixpoint column_dict (reduce : list cell -> result ndvalue)
    (cols : list string) (df : DataFrame) : result (gmap string ndvalue) :=
  match cols with
  | [] => Ok ∅
  | col :: rest =>
      rbind (get_column df col) (fun values =>
      rbind (reduce values) (fun v =>
      rbind (column_dict reduce rest df) (fun d =>
      Ok (<[col := v]> d))))
  end.

(** The in-memory part of [save_normalization_stats]: the table after
    the in-place coercion and the statistics that are then pickled. *)
Definition fit (A : arith) (cols : list string) (df : DataFrame)
  : result (DataFrame * Stats) :=
  rbind (apply_columns (fun _ => infinite2zero) cols df) (fun df' =>
  rbind (column_dict (column_mean A) cols df') (fun mean =>
  rbind (column_dict (column_std A) cols df') (fun std =>
  Ok (df', {| stat_mean := mean; stat_std := std |})))).

(** [set(cols_to_normalize).intersection(df.columns)], listed in the
    order of [cols_to_normalize] without repetitions. *)
Definition columns_to_transform (cols : list string) (df : DataFrame)
  : list string :=
  filter (fun col => is_Some (columns df !! col)) (remove_dups cols).

(** The in-memory part of [normalize_columns], after the statistics
    have been read. *)
Definition transform (A : arith) (stats : Stats) (cols : list string)
    (df : DataFrame) : result DataFrame :=
  apply_columns (normalize_cell A stats) (columns_to_transform cols df) df.

End Frame.

(** ** Configuration: [utils/types.py] *)

Module Types.
Import PyFloat.

Record AudioProcessingConfig : Type := { use_cache : bool }.

Record DatasetConfig : Type := { cols_to_normalize : list string }.

Record TrainingConfig : Type := { data_split : list pyfloat }.

Record Config : Type := {
  audio_processing : AudioProcessingConfig;
  dataset : DatasetConfig;
  training : TrainingConfig;
  use_multiprocessing : bool
}.

(** The dataclass defaults. *)
Definition default_cols_to_normalize : list string :=
  ["mfcc"; "prev"; "next"; "part"]%string.

Definition default_data_split : list pyfloat :=
  [zero; lit_0_8; lit_0_9; lit_0_99].

Definition default_config : Config := {|
  audio_processing := {| use_cache := true |};
  dataset := {| cols_to_normalize := default_cols_to_normalize |};
  training := {| data_split := default_data_split |};
  use_multiprocessing := false
|}.

End Types.

(** ** The pipeline of [process/api.py] *)

Module Api.
Import PyFloat Frame Types.

Inductive Phase : Type := Train | Val | Test.

Definition phase_eqb (a b : Phase) : bool :=
  match a, b with
  | Train, Train | Val, Val | Test, Test => true
  | _, _ => false
  end.

(** A loaded [gensim.models.KeyedVectors]: [action_model[word]] raises
    KeyError where [get_vector] is [None]. *)
Record ActionModel : Type := {
  get_vector : string -> option (list pyfloat);
  vocab : list string
}.

Inductive warning : Type :=
| CollectedZeroSongs      (* 'Dataset creation collected 0 songs. ...' *)
| SkippedDataset (p : Phase)  (* 'Skipped {phase} dataset. No songs.' *)
| NoActionWordModel.      (* 'Could not find action word model ...' *)

(** What a run leaves behind, in order. *)
Inductive event : Type :=
| Processing (p : Phase)                  (* print(f'Processing {phase}') *)
| CreateDataframe (folders : list string) (* entry of songs2dataset *)
| RebuildOggCaches (folders : list string) (* remove_ogg_cache, create_ogg_caches *)
| Warning (w : warning)                   (* logging.warning *)
| WriteStats (s : Stats)                  (* to_pickle(normalization_stats_path) *)
| ReadStats                               (* read_pickle(normalization_stats_path) *)
| WriteDataset (p : Phase) (df : DataFrame). (* to_pickle(result_path) *)

(** The files the pipeline touches and the trace of the run. *)
Record World : Type := {
  action_word_model : option ActionModel; (* action_word_model_path, if it exists *)
  stats_file : option Stats;              (* normalization_stats_path, if it exists *)
  datasets : list (Phase * DataFrame);    (* '{phase}_beatmaps.pkl', latest first *)
  trace : list event                      (* oldest first *)
}.

(** State and exceptions. *)
Definition M (A : Type) : Type := World -> result A * World.

Definition ret {A} (a : A) : M A := fun w => (Ok a, w).

Definition raise {A} (e : exn) : M A := fun w => (Raise e, w).

Definition bind {A B} (m : M A) (k : A -> M B) : M B :=
  fun w =>
    match m w with
    | (Ok a, w') => k a w'
    | (Raise e, w') => (Raise e, w')
    end.

Definition lift {A} (r : result A) : M A := fun w => (r, w).

Definition emit (e : event) : M unit :=
  fun w => (Ok tt, {| action_word_model := action_word_model w;
                      stats_file := stats_file w;
                      datasets := datasets w;
                      trace := trace w ++ [e] |}).

Definition logging_warning (msg : warning) : M unit := emit (Warning msg).

(** Specification side: the world after more events, two classes of
    events, and worlds that hold the same input files. *)
Definition add_events (w : World) (es : list event) : World :=
  {| action_word_model := action_word_model w;
     stats_file := stats_file w;
     datasets := datasets w;
     trace := trace w ++ es |}.

Definition is_write_stats (e : event) : bool :=
  match e with WriteStats _ => true | _ => false end.

Definition is_read_stats (e : event) : bool :=
  match e with ReadStats => true | _ => false end.

Definition same_files (w w' : World) : Prop :=
  action_word_model w = action_word_model w' /\ stats_file w = stats_file w'.

(** Specification side, three kinds of computations: those that only
    append events other than accesses to the statistics file; those that
    never write the statistics file; those whose outcome and effect on
    the input files depend on the input files alone. *)
Definition only_logs {A} (m : M A) : Prop :=
  forall w, exists es,
    snd (m w) = add_events w es
    /\ Forall (fun e => is_write_stats e = false /\ is_read_stats e = false) es.

Definition keeps_stats {A} (m : M A) : Prop :=
  forall w,
    action_word_model (snd (m w)) = action_word_model w
    /\ stats_file (snd (m w)) = stats_file w
    /\ exists es, trace (snd (m w)) = trace w ++ es
                  /\ Forall (fun e => is_write_stats e = false) es.

Definition reads_files_only {A} (m : M A) : Prop :=
  forall w w', same_files w w' ->
    fst (m w) = fst (m w') /\ same_files (snd (m w)) (snd (m w')).

Notation "x <- m ;; k" := (bind m (fun x => k))
  (at level 100, m at next level, right associativity).
Notation "m ;;; k" := (bind m (fun _ => k))
  (at level 100, right associativity).

(** A [for x in l: body(x)] loop. *)
Fixpoint for_each {A} (l : list A) (body : A -> M unit) : M unit :=
  match l with
  | [] => ret tt
  | x :: rest => body x ;;; for_each rest body
  end.

(** The collaborators imported from outside [process/api.py]. *)
Record Externals : Type := {
  (* process.compute.process_song_folder; [None] is a failed song *)
  process_song_folder : string -> Config -> nat * nat -> option DataFrame;
  (* pd.concat *)
  pd_concat : list DataFrame -> DataFrame;
  (* df.groupby(['name', 'difficulty']).apply(add_previous_prediction) *)
  add_previous_prediction : Config -> DataFrame -> DataFrame;
  (* df.groupby(['name', 'difficulty']).apply(generate_snippets) *)
  generate_snippets : Config -> DataFrame -> DataFrame;
  (* utils.functions.check_consistency; [false] when it raises *)
  check_consistency : DataFrame -> bool;
  (* utils.functions.create_word_mapping *)
  create_word_mapping : ActionModel -> gmap string Z;
  (* numpy's arithmetic in the reductions and in the normalisation *)
  reduce_arith : arith;
  elementwise_arith : arith
}.

Section Pipeline.
Variable ext : Externals.

(** [enumerate(song_folders)] paired with the progress tuple. *)
Definition dispatcher_inputs (song_folders : list string) (config : Config)
  : list (string * Config * (nat * nat)) :=
  imap (fun i s => (s, config, (i, length song_folders))) song_folders.

(** The word of a row of the word column. *)
Definition word_of_cell (c : cell) : result string :=
  match c with
  | CStr s => Ok s
  | _ => Raise TypeError
  end.

(** [action_model[words]]: one vector per word, stacked; KeyError on a
    word without vector, ValueError on an empty list of words. *)
Definition lookup_vectors (model : ActionModel) (words : list string)
  : result (list (list pyfloat)) :=
  rbind (rmapM (fun w => match get_vector model w with
                         | Some v => Ok v
                         | None => Raise KeyError
                         end) words) (fun vs =>
  match vs with
  | [] => Raise ValueError
  | _ => Ok vs
  end).

Definition df_post_processing (df : DataFrame) (config : Config)
  : M DataFrame :=
  fun w =>
    match action_word_model w with
    | Some action_model =>
        (values <- lift (get_column df "word") ;;
         words <- lift (rmapM word_of_cell values) ;;
         vectors <- lift (lookup_vectors action_model words) ;;
         let df := set_column df "word_vec"
                     (map (fun v => CArray (map astype_float16 v)) vectors) in
         let word_id_dict := create_word_mapping ext action_model in
         let df := set_column df "word_id"
                     (map (fun word => CInt (default 1 (word_id_dict !! word)))
                          words) in
         ret (add_previous_prediction ext config df)) w
    | None =>
        (logging_warning NoActionWordModel ;;;
         let df := set_column df "word_vec" (replicate (nrows df) (CInt 0)) in
         let df := set_column df "word_id" (replicate (nrows df) (CInt 0)) in
         ret (add_previous_prediction ext config df)) w
    end.

(** The cached MFCC tables are rebuilt only when the cache is not to be
    used; the rebuild is an external effect and appears as an event. *)
Definition recalculate_mfcc_df_cache (song_folders : list string)
    (config : Config) : M unit :=
  if use_cache (audio_processing config) then ret tt
  else emit (RebuildOggCaches song_folders).

(** Specification side: the events with which [songs2dataset] starts. *)
Definition dataframe_events (config : Config) (folders : list string)
  : list event :=
  CreateDataframe folders
  :: (if use_cache (audio_processing config) then []
      else [RebuildOggCaches folders]).

Definition songs2dataset (song_folders : list string) (config : Config)
  : M (option DataFrame) :=
  emit (CreateDataframe song_folders) ;;;
  recalculate_mfcc_df_cache song_folders config ;;;
  let inputs := dispatcher_inputs song_folders config in
  let songs :=
    if use_multiprocessing config
    then map (fun '(s, c, p) => process_song_folder ext s c p) inputs
    else map (fun '(s, c, p) => process_song_folder ext s c p) inputs in
  let songs := omap id songs in
  if (length songs =? 0)%nat
  then logging_warning CollectedZeroSongs ;;; ret None
  else
    df <- df_post_processing (pd_concat ext songs) config ;;
    ret (Some (generate_snippets ext config df)).

(** Specification side: every dispatcher result of [folders] is a failed
    song. *)
Definition all_failed (folders : list string) (config : Config) : Prop :=
  forall i s, folders !! i = Some s ->
              process_song_folder ext s config (i, length folders) = None.

Definition write_stats (s : Stats) : M unit :=
  fun w => (Ok tt, {| action_word_model := action_word_model w;
                      stats_file := Some s;
                      datasets := datasets w;
                      trace := trace w ++ [WriteStats s] |}).

Definition read_stats : M Stats :=
  emit ReadStats ;;;
  fun w => match stats_file w with
           | Some s => (Ok s, w)
           | None => (Raise FileNotFoundError, w)
           end.

Definition write_dataset (p : Phase) (df : DataFrame) : M unit :=
  fun w => (Ok tt, {| action_word_model := action_word_model w;
                      stats_file := stats_file w;
                      datasets := (p, df) :: datasets w;
                      trace := trace w ++ [WriteDataset p df] |}).

(** [save_normalization_stats] returns the table as the in-place update
    of [df] leaves it. *)
Definition save_normalization_stats (df : DataFrame) (config : Config)
  : M DataFrame :=
  let regression_cols := cols_to_normalize (dataset config) in
  fitted <- lift (fit (reduce_arith ext) regression_cols df) ;;
  write_stats (snd fitted) ;;;
  ret (fst fitted).

Definition normalize_columns (df : DataFrame) (config : Config)
  : M DataFrame :=
  stats <- read_stats ;;
  lift (transform (elementwise_arith ext) stats
          (cols_to_normalize (dataset config)) df).

Definition phases : list Phase := [Train; Val; Test].

(** [zip(['train', 'val', 'test'], zip(data_split, data_split[1:]))] *)
Definition phase_splits (config : Config)
  : list (Phase * (pyfloat * pyfloat)) :=
  let data_split := data_split (training config) in
  zip phases (zip data_split (tail data_split)).

(** The loop body of [generate_datasets] from the call of
    [songs2dataset] on the sliced folders to the pickled table. *)
Definition process_split (phase : Phase) (folders : list string)
    (config : Config) : M unit :=
  df <- songs2dataset folders config ;;
  match df with
  | None => logging_warning (SkippedDataset phase)
  | Some df =>
      (if check_consistency ext df then ret tt else raise AssertionError) ;;;
      df <- (if phase_eqb phase Train
             then save_normalization_stats df config
             else ret df) ;;
      df <- normalize_columns df config ;;
      write_dataset phase df
  end.

(** One iteration of the loop of [generate_datasets]. *)
Definition generate_phase (song_folders : list string) (config : Config)
    (item : Phase * (pyfloat * pyfloat)) : M unit :=
  let '(phase, split) := item in
  emit (Processing phase) ;;;
  let total := Z.of_nat (length song_folders) in
  split_from <- lift (int_times_float total (fst split)) ;;
  split_to <- lift (int_times_float total (snd split)) ;;
  process_split phase (PyList.slice song_folders split_from split_to) config.

Definition generate_datasets (song_folders : list string) (config : Config)
  : M unit :=
  for_each (phase_splits config) (generate_phase song_folders config).

End Pipeline.

End Api.

(** ** A small instance to run the model on *)

Module Sample.
Import PyFloat Frame Types Api.

(** [float(z)] for a small int. *)
Definition fl (z : Z) : pyfloat := binary_normalize 53 1024 z 0 false.

(** A one-row song table. *)
Definition song_table (word : string) (prev mfcc0 mfcc1 : Z) : DataFrame := {|
  nrows := 1;
  columns := <["word" := [CStr word]]>
            (<["prev" := [CFloat (fl prev)]]>
            (<["mfcc" := [CArray [fl mfcc0; fl mfcc1]]]> ∅))
|}.

(** Row-wise concatenation of tables that have the same columns. *)
Definition concat_tables (tables : list DataFrame) : DataFrame :=
  match tables with
  | [] => {| nrows := 0; columns := ∅ |}
  | t :: rest =>
      fold_left (fun acc t' =>
                   {| nrows := nrows acc + nrows t';
                      columns := union_with (fun a b => Some (a ++ b))
                                   (columns acc) (columns t') |})
                rest t
  end.

(** Collaborators: the folder named broken fails, any other folder gives
    a one-row table; grouping steps and the consistency check do
    nothing; vocabulary words are numbered from 2. *)
Definition externals : Externals := {|
  process_song_folder := fun s _ p =>
    if String.eqb s "broken" then None
    else Some (song_table s (Z.of_nat (fst p)) 1 (Z.of_nat (fst p) + 2));
  pd_concat := concat_tables;
  add_previous_prediction := fun _ df => df;
  generate_snippets := fun _ df => df;
  check_consistency := fun _ => true;
  create_word_mapping := fun m =>
    list_to_map (imap (fun i w => (w, Z.of_nat i + 2)) (vocab m));
  reduce_arith := arith_float32;
  elementwise_arith := arith_float64
|}.

Definition ten_songs : list string :=
  ["a"; "b"; "broken"; "c"; "d"; "e"; "f"; "g"; "h"; "i"]%string.

Definition empty_world : World := {|
  action_word_model := None;
  stats_file := None;
  datasets := [];
  trace := []
|}.

(** A word model that knows the word a and still has a vector for b. *)
Definition word_model : ActionModel := {|
  get_vector := fun w =>
    if String.eqb w "a" then Some [fl 1; fl 2]
    else if String.eqb w "b" then Some [fl 3; fl 4]
    else None;
  vocab := ["a"]%string
|}.

Definition world_with_model : World := {|
  action_word_model := Some word_model;
  stats_file := None;
  datasets := [];
  trace := []
|}.

(** Statistics for prev alone. *)
Definition prev_stats : Stats := {|
  stat_mean := <["prev" := NScalar (fl 1)]> ∅;
  stat_std := <["prev" := NScalar (fl 2)]> ∅
|}.

(** Eight folders that fail, then two that load. *)
Definition failing_train_songs : list string :=
  ["broken"; "broken"; "broken"; "broken"; "broken"; "broken"; "broken";
   "broken"; "v"; "t"]%string.

(** Statistics with mean 1 and standard deviation 2 for prev and mfcc. *)
Definition stale_stats : Stats := {|
  stat_mean := <["prev" := NScalar (fl 1)]>
              (<["mfcc" := NVector [fl 1; fl 1]]> ∅);
  stat_std := <["prev" := NScalar (fl 2)]>
             (<["mfcc" := NVector [fl 2; fl 2]]> ∅)
|}.

Definition world_with_stats (s : Stats) : World := {|
  action_word_model := None;
  stats_file := Some s;
  datasets := [];
  trace := []
|}.

Definition config_with_cols (cols : list string) : Config := {|
  audio_processing := {| use_cache := true |};
  dataset := {| cols_to_normalize := cols |};
  training := {| data_split := default_data_split |};
  use_multiprocessing := false
|}.

End Sample.

(** ** Reading the datasets back: [load_datasets] *)

Module Load.
Import Frame Types Api.

(** [pd.read_pickle(storage_folder / f'{phase}_beatmaps.pkl')]: the table
    pickled last for the phase; FileNotFoundError when there is none. *)
Definition read_dataset (phase : Phase) : M DataFrame :=
  fun w =>
    match List.find (fun item => phase_eqb (fst item) phase) (datasets w) with
    | Some item => (Ok (snd item), w)
    | None => (Raise FileNotFoundError, w)
    end.

(** A list comprehension [[f(x) for x in l]]. *)
Fixpoint comprehension {A B} (f : A -> M B) (l : list A) : M (list B) :=
  match l with
  | [] => ret []
  | x :: rest =>
      y <- f x ;;
      ys <- comprehension f rest ;;
      ret (y :: ys)
  end.

(** [try: body / except FileNotFoundError as e: raise FileNotFoundError(...)]:
    the exception is replaced by one of the same class. *)
Definition reraise_file_not_found {A} (body : M A) : M A :=
  fun w =>
    match body w with
    | (Raise FileNotFoundError, w') => (Raise FileNotFoundError, w')
    | outcome => outcome
    end.

Definition load_datasets (config : Config) : M (list DataFrame) :=
  reraise_file_not_found (comprehension read_dataset phases).

(** Specification side: the tables that a sequence of events pickles,
    oldest first. *)
Definition written (es : list event) : list (Phase * DataFrame) :=
  omap (fun e => match e with
                 | WriteDataset p df => Some (p, df)
                 | _ => None
                 end) es.

(** Specification side: a computation that only adds dataset files, one
    per pickling event, for phases taken in order from [ps]. *)
Definition writes_within {A} (ps : list Phase) (m : M A) : Prop :=
  forall w, exists es,
    trace (snd (m w)) = trace w ++ es
    /\ datasets (snd (m w)) = rev (written es) ++ datasets w
    /\ map fst (written es) `sublist_of` ps.

End Load.

(** ** The data part of [main] in [run_by_hand.py] *)

Module RunByHand.
Import Discovery Frame Types Api Load.

(** [main] up to [train, val, test = load_datasets(config)]: the
    configuration is the default one with [use_cache] set to [True], the
    song folders are those found under [beat_maps_folder]. *)
Definition main (ext : Externals) (beat_maps_folder : string) (t : tree)
  : M (list DataFrame) :=
  let config := {|
    audio_processing := {| use_cache := true |};
    dataset := dataset default_config;
    training := training default_config;
    use_multiprocessing := use_multiprocessing default_config
  |} in
  let song_folders := create_song_list beat_maps_folder t in
  generate_datasets ext song_folders config ;;;
  load_datasets config.

End RunByHand.

(** ** The cached property [DatasetConfig.word_id_num_classes] *)

Module ClassCounts.
Import Api.

(** The property reads and updates the attribute [_word_id_num_classes]
    of the instance: the function takes the attribute and returns the
    value of the property with the attribute as the call leaves it. *)
Definition word_id_num_classes (_word_id_num_classes : Z) (w : World)
  : Z * Z :=
  if _word_id_num_classes >? 0 then (_word_id_num_classes, _word_id_num_classes)
  else
    let attribute :=
      match action_word_model w with
      | Some model => Z.of_nat (length (vocab model)) + 2
      | None => _word_id_num_classes
      end in
    (attribute, attribute).

(** [DatasetConfig.num_classes] *)
Definition num_classes (_word_id_num_classes : Z) (w : World)
  : gmap string Z * Z :=
  let counted := word_id_num_classes _word_id_num_classes w in
  (<["difficulty" := 5]>
     (<["_lineLayer" := 3]>
        (<["_lineIndex" := 4]>
           (<["_cutDirection" := 9]>
              (<["word_id" := fst counted]> ∅)))),
   snd counted).

End ClassCounts.

(** ** Hyper-parameter evaluation: [experiments/compute.py] *)

Module Experiments.
Import PyFloat.

(** The Python values that occur in the metrics of an evaluation:
    floats, the per-epoch lists of a training history, strings and
    dicts of such values. *)
#[warnings="-register-all"]
Inductive value : Type :=
| VFloat (x : pyfloat)
| VList (xs : list pyfloat)
| VStr (s : string)
| VDict (d : gmap string value).

Definition dict : Type := gmap string value.

(** [pd.Series(eval_metrics, name=configuration_name)] *)
Record Series : Type := {
  series_name : string;
  series_data : dict
}.

(** A results table: the name of its index and its rows in order.  A csv
    file stands for the table that [to_csv] wrote and that
    [read_csv(csv_file, index_col=0)] gives back. *)
Record Table : Type := {
  index_name : string;
  table_rows : list Series
}.


Section Lab.

(** The values of hyper-parameters. *)
Variable param : Type.

(** What an evaluation touches: the csv files under
    [base_folder / 'temp'] by name, the shared [return_list], the
    attributes of [config.training], and the number of calls of [timer]
    so far. *)
Record Lab : Type := {
  csv_files : gmap string Table;
  return_list : list dict;
  training_attrs : gmap string param;
  timer_calls : nat
}.

(** [str(x)] on a parameter and [str(config)]. *)
Variable str : param -> string.
Variable str_config : gmap string param -> string.

(** The value that the n-th call of [timer] returns. *)
Variable elapsed : nat -> pyfloat.

(** [get_config_model_loss] in its own process, on the configuration as
    it is when the process starts: the history and the metrics that its
    last statement stores in [return_list], or [None] when the process
    ends before that statement. *)
Variable get_config_model_loss : gmap string param -> option (dict * dict).

(** State and exceptions. *)
Definition L (A : Type) : Type := Lab -> result A * Lab.














End Lab.

End Experiments.

(** ** More sample data *)

Module SampleRun.
Import Discovery Frame Types Api.

(** A beat-map folder with two songs, one of them nested in a folder
    that holds no song itself, and a folder without metadata. *)
Definition two_song_tree : tree :=
  Dir "dataset" ["readme.txt"]
    [Dir "a" ["Info.dat"; "song.ogg"] [];
     Dir "pack" [] [Dir "b" ["info.json"] []];
     Dir "empty" ["cover.jpg"] []].

(** Twelve folders that all load. *)
Definition twelve_songs : list string :=
  ["a"; "b"; "c"; "d"; "e"; "f"; "g"; "h"; "i"; "j"; "k"; "l"]%string.

(** A one-row song table with every column of the default
    [cols_to_normalize]. *)
Definition full_table (word : string) (i : Z) : DataFrame := {|
  nrows := 1;
  columns := <["word" := [CStr word]]>
            (<["mfcc" := [CArray [Sample.fl i; Sample.fl (i + 1)]]]>
            (<["prev" := [CFloat (Sample.fl i)]]>
            (<["next" := [CFloat (Sample.fl (i + 2))]]>
            (<["part" := [CFloat (Sample.fl 1)]]> ∅))))
|}.

(** Collaborators as in [Sample.externals], with full tables. *)
Definition externals : Externals := {|
  process_song_folder := fun s _ p =>
    if String.eqb s "broken" then None
    else Some (full_table s (Z.of_nat (fst p)));
  pd_concat := Sample.concat_tables;
  add_previous_prediction := fun _ df => df;
  generate_snippets := fun _ df => df;
  check_consistency := fun _ => true;
  create_word_mapping := create_word_mapping Sample.externals;
  reduce_arith := arith_float32;
  elementwise_arith := arith_float64
|}.

(** A table left by an earlier run. *)
Definition old_table : DataFrame := Sample.song_table "old" 0 0 0.

Definition world_with_datasets (files : list (Phase * DataFrame)) : World := {|
  action_word_model := None;
  stats_file := None;
  datasets := files;
  trace := []
|}.

End SampleRun.

(** ** A small hyper-parameter search *)

Module SampleLab.
Import PyFloat Experiments.








End SampleLab.

(** * Properties *)

(** ** Rounding of binary64 products *)

Module Rounding.
Import PyFloat.

Lemma shr_1_nonneg m r s :
  0 <= m ->
  shr_1 {| shr_m := m; shr_r := r; shr_s := s |}
  = {| shr_m := Z.div2 m; shr_r := Z.odd m; shr_s := r || s |}.
Proof. destruct m as [|[p|p|]|p]; simpl; intros; try reflexivity; lia. Qed.

Lemma iter_pos_nat {A} (f : A -> A) k x :
  SpecFloat.iter_pos f k x = Nat.iter (Pos.to_nat k) f x.
Proof.
  revert x; induction k as [k IH|k IH|]; intros x; cbn [SpecFloat.iter_pos].
  - rewrite !IH, Pos2Nat.inj_xI.
    replace (S (2 * Pos.to_nat k))%nat with (Pos.to_nat k + S (Pos.to_nat k))%nat by lia.
    now rewrite Nat.iter_add, Nat.iter_succ_r.
  - rewrite !IH, Pos2Nat.inj_xO.
    replace (2 * Pos.to_nat k)%nat with (Pos.to_nat k + Pos.to_nat k)%nat by lia.
    now rewrite Nat.iter_add.
  - reflexivity.
Qed.

Lemma low_bits_step m j :
  0 <= j ->
  negb (m mod 2 ^ (j + 1) =? 0)
  = Z.testbit m j || negb (m mod 2 ^ j =? 0).
Proof.
  intros Hj.
  assert (Hp : 0 < 2 ^ j) by (apply Z.pow_pos_nonneg; lia).
  rewrite Z.pow_add_r, Z.pow_1_r by lia.
  rewrite Z.rem_mul_r by lia.
  pose proof (Z.testbit_spec' m j Hj) as Hb.
  pose proof (Z.mod_pos_bound m (2 ^ j) Hp).
  destruct (Z.testbit m j); simpl in Hb; rewrite <- Hb; simpl.
  - destruct (Z.eqb_spec (m mod 2 ^ j + 2 ^ j * 1) 0); [lia | reflexivity].
  - now rewrite Z.mul_0_r, Z.add_0_r.
Qed.

Lemma iter_shr_1 (j : nat) m :
  0 <= m ->
  Nat.iter (S j) shr_1 {| shr_m := m; shr_r := false; shr_s := false |}
  = {| shr_m := m / 2 ^ Z.of_nat (S j);
       shr_r := Z.testbit m (Z.of_nat j);
       shr_s := negb (m mod 2 ^ Z.of_nat j =? 0) |}.
Proof.
  intros Hm. induction j as [|j IH].
  - cbn [Nat.iter nat_rect]. rewrite shr_1_nonneg by lia.
    change (Z.of_nat 1) with 1. change (Z.of_nat 0) with 0.
    rewrite Z.pow_1_r, Z.pow_0_r, Z.mod_1_r, Z.div2_div, Z.bit0_odd.
    reflexivity.
  - rewrite Nat.iter_succ, IH.
    assert (0 <= m / 2 ^ Z.of_nat (S j))
      by (apply Z.div_pos; [lia | apply Z.pow_pos_nonneg; lia]).
    rewrite shr_1_nonneg by assumption.
    f_equal.
    + rewrite Z.div2_div, Z.div_div by (try apply Z.pow_pos_nonneg; lia).
      f_equal. rewrite (Nat2Z.inj_succ (S j)), Z.pow_succ_r by lia. lia.
    + rewrite <- Z.bit0_odd, <- Z.shiftr_div_pow2, Z.shiftr_spec by lia.
      f_equal.
    + rewrite (Nat2Z.inj_succ j), <- Z.add_1_r. symmetry. apply low_bits_step. lia.
Qed.


Lemma shr_exact m e k :
  0 <= m ->
  shr {| shr_m := m; shr_r := false; shr_s := false |} e k
  = if k <=? 0 then ({| shr_m := m; shr_r := false; shr_s := false |}, e)
    else ({| shr_m := m / 2 ^ k;
             shr_r := Z.testbit m (k - 1);
             shr_s := negb (m mod 2 ^ (k - 1) =? 0) |}, e + k).
Proof.
  intros Hm. destruct k as [|k|k]; try reflexivity.
  unfold shr. change (Z.pos k <=? 0) with false. cbv iota.
  rewrite iter_pos_nat.
  destruct (Pos2Nat.is_succ k) as [j Hj]. rewrite Hj, iter_shr_1 by assumption.
  assert (Hk : Z.pos k = Z.of_nat (S j)) by lia.
  rewrite Hk. repeat f_equal; lia.
Qed.

Lemma round_after_shr m e k :
  0 <= m ->
  let mrs := fst (shr {| shr_m := m; shr_r := false; shr_s := false |} e k) in
  round_nearest_even (shr_m mrs) (loc_of_shr_record mrs) = rne m k.
Proof.
  intros Hm. rewrite shr_exact by assumption. unfold rne.
  destruct (k <=? 0); [reflexivity|]. cbn [fst shr_m loc_of_shr_record].
  destruct (Z.testbit m (k - 1)), (m mod 2 ^ (k - 1) =? 0); cbn;
    try reflexivity.
Qed.

Lemma digits2_log2 p : Z.pos (digits2_pos p) = Z.log2 (Z.pos p) + 1.
Proof.
  assert (Hs : forall q, digits2_pos q = Pos.size q)
    by (induction q; simpl; congruence).
  rewrite Hs. destruct p; simpl; lia.
Qed.

Lemma rne_error m k :
  0 <= m -> 0 <= k -> 2 * Z.abs (rne m k * 2 ^ k - m) <= 2 ^ k.
Proof.
  intros Hm Hk. unfold rne.
  destruct (Z.leb_spec k 0) as [H0|H0].
  - assert (k = 0) as -> by lia. rewrite Z.pow_0_r. lia.
  - assert (Hp : 0 < 2 ^ (k - 1)) by (apply Z.pow_pos_nonneg; lia).
    assert (H2 : 2 ^ k = 2 ^ (k - 1) * 2)
      by (rewrite Z.mul_comm, <- Z.pow_succ_r by lia; f_equal; lia).
    pose proof (Z.div_mod m (2 ^ k) ltac:(lia)) as Hdm.
    pose proof (Z.rem_mul_r m (2 ^ (k - 1)) 2 ltac:(lia) ltac:(lia)) as Hr.
    rewrite <- H2 in Hr.
    pose proof (Z.testbit_spec' m (k - 1) ltac:(lia)) as Hb.
    pose proof (Z.mod_pos_bound m (2 ^ (k - 1)) Hp) as Hlow.
    set (q := m / 2 ^ k) in *. set (low := m mod 2 ^ (k - 1)) in *.
    destruct (Z.testbit m (k - 1)); simpl in Hb; rewrite <- Hb in Hr.
    + destruct (Z.eqb_spec low 0) as [Hz|Hz]; simpl;
        [destruct (Z.even q)|]; nia.
    + nia.
Qed.

Lemma rne_range m k :
  0 <= k -> 2 ^ (52 + k) <= m < 2 ^ (53 + k) -> 2 ^ 52 <= rne m k <= 2 ^ 53.
Proof.
  intros Hk Hm. unfold rne.
  destruct (Z.leb_spec k 0) as [H0|H0].
  - assert (k = 0) as -> by lia. rewrite !Z.add_0_r in Hm. lia.
  - assert (Hp : 0 < 2 ^ k) by (apply Z.pow_pos_nonneg; lia).
    rewrite !Z.pow_add_r in Hm by lia.
    assert (2 ^ 52 <= m / 2 ^ k) by (apply Z.div_le_lower_bound; lia).
    assert (m / 2 ^ k < 2 ^ 53) by (apply Z.div_lt_upper_bound; lia).
    cbv zeta.
    destruct (Z.testbit m (k - 1)); [|lia].
    destruct ((m mod 2 ^ (k - 1) =? 0) && Z.even (m / 2 ^ k)); lia.
Qed.

Lemma shr_fexp_exact m e :
  0 < m ->
  let k := Z.log2 m + 1 - 53 in
  -1074 <= e + k ->
  shr_fexp 53 1024 m e loc_Exact
  = shr {| shr_m := m; shr_r := false; shr_s := false |} e k.
Proof.
  intros Hm k Hk. unfold shr_fexp. cbn [shr_record_of_loc].
  f_equal. destruct m as [|p|p]; try lia. cbn [Zdigits2].
  rewrite digits2_log2. unfold fexp, emin. subst k. lia.
Qed.

(** Closed form of [binary_round_aux] on an exact positive mantissa that
    has at least 53 digits and stays above the subnormal range. *)
Lemma binary_round_aux_exact s p e :
  let m := Z.pos p in
  let k := Z.log2 m + 1 - 53 in
  0 <= k -> -1074 <= e + k ->
  binary_round_aux 53 1024 s m e loc_Exact
  = let q := rne m k in
    if q =? 2 ^ 53
    then if e + k + 1 <=? 971
         then S754_finite s (Z.to_pos (2 ^ 52)) (e + k + 1)
         else S754_infinity s
    else if e + k <=? 971
         then S754_finite s (Z.to_pos q) (e + k)
         else S754_infinity s.
Proof.
  intros m k Hk He.
  assert (Hm : 0 < m) by (subst m; lia).
  pose proof (Z.log2_spec m Hm) as Hlog.
  assert (Hrange : 2 ^ (52 + k) <= m < 2 ^ (53 + k)).
  { subst k. replace (52 + (Z.log2 m + 1 - 53)) with (Z.log2 m) by lia.
    replace (53 + (Z.log2 m + 1 - 53)) with (Z.succ (Z.log2 m)) by lia. exact Hlog. }
  pose proof (rne_range m k Hk Hrange) as Hq.
  unfold binary_round_aux.
  rewrite (shr_fexp_exact m e Hm He).
  fold k.
  pose proof (round_after_shr m e k ltac:(lia)) as Hr. cbv zeta in Hr.
  destruct (shr {| shr_m := m; shr_r := false; shr_s := false |} e k)
    as [mrs e'] eqn:Hshr.
  assert (He' : e' = e + k).
  { rewrite shr_exact in Hshr by lia.
    destruct (Z.leb_spec k 0); inversion Hshr; lia. }
  cbn [fst] in Hr. rewrite Hr. subst e'.
  set (q := rne m k) in *.
  assert (Hq0 : 0 < q) by lia.
  destruct (Z.eqb_spec q (2 ^ 53)) as [Heq|Hne].
  - rewrite (shr_fexp_exact q (e + k) Hq0) by (rewrite Heq; simpl; lia).
    rewrite Heq. change (Z.log2 (2 ^ 53) + 1 - 53) with 1.
    rewrite shr_exact by lia. cbn [Z.leb Z.compare shr_m].
    change (2 ^ 53 / 2 ^ 1) with (2 ^ 52).
    reflexivity.
  - assert (Hl : Z.log2 q = 52) by (apply Z.log2_unique; lia).
    rewrite (shr_fexp_exact q (e + k) Hq0) by (rewrite Hl; lia).
    rewrite Hl. change (52 + 1 - 53) with 0.
    rewrite shr_exact by lia. cbn [Z.leb Z.compare shr_m].
    clearbody q. destruct q; try lia. reflexivity.
Qed.

End Rounding.

Module PyFloatFacts.
Import Rounding PyFloat.

(** The literal constants are the doubles nearest to the decimals. *)
#[warnings="-inexact-float"]
Example literals_are_nearest_doubles :
  Prim2SF 0.0%float = zero
  /\ Prim2SF 0.8%float = lit_0_8
  /\ Prim2SF 0.9%float = lit_0_9
  /\ Prim2SF 0.99%float = lit_0_99
  /\ Prim2SF 1e-6%float = lit_1e_6.
Proof. repeat split; vm_compute; reflexivity. Qed.

Lemma iter_xO p n : Z.pos (Pos.iter xO p n) = Z.pos p * 2 ^ Z.pos n.
Proof.
  induction n as [|n IH] using Pos.peano_ind.
  - cbn [Pos.iter]. rewrite Z.pow_1_r. lia.
  - rewrite Pos.iter_succ, Pos2Z.inj_xO, IH, Pos2Z.inj_succ, Z.pow_succ_r by lia.
    lia.
Qed.

Lemma float_of_int_pos n :
  1 <= n < 2 ^ 63 ->
  exists mx ex,
    float_of_int n = Ok (S754_finite false mx ex)
    /\ 2 ^ 52 <= Z.pos mx < 2 ^ 53 /\ -52 <= ex <= 11.
Proof.
  intros Hn. destruct n as [|p|p]; try lia.
  unfold float_of_int, binary_normalize, binary_round.
  pose proof (Z.log2_spec (Z.pos p) ltac:(lia)) as Hlog.
  assert (Hl63 : Z.log2 (Z.pos p) < 63) by (apply Z.log2_lt_pow2; lia).
  pose proof (Z.log2_nonneg (Z.pos p)) as Hl0.
  rewrite digits2_log2. unfold fexp, emin, shl_align.
  rewrite Z.max_l by lia.
  destruct (Z.log2 (Z.pos p) + 1 + 0 - 53 - 0) as [|d|d] eqn:Hd.
  - assert (Hk : Z.log2 (Z.pos p) + 1 - 53 = 0) by lia.
    rewrite binary_round_aux_exact by lia.
    rewrite Hk. change (rne (Z.pos p) 0) with (Z.pos p).
    cbv zeta.
    assert (Hlt : 2 ^ 52 <= Z.pos p < 2 ^ 53).
    { replace (Z.log2 (Z.pos p)) with 52 in Hlog by lia. exact Hlog. }
    destruct (Z.eqb_spec (Z.pos p) (2 ^ 53)); [lia|].
    cbn. eexists _, _. split; [reflexivity|]. lia.
  - assert (Hk : Z.log2 (Z.pos p) + 1 - 53 = Z.pos d) by lia.
    rewrite binary_round_aux_exact by lia.
    rewrite Hk. cbv zeta.
    assert (Hrange : 2 ^ (52 + Z.pos d) <= Z.pos p < 2 ^ (53 + Z.pos d)).
    { replace (52 + Z.pos d) with (Z.log2 (Z.pos p)) by lia.
      replace (53 + Z.pos d) with (Z.succ (Z.log2 (Z.pos p))) by lia.
      exact Hlog. }
    pose proof (rne_range (Z.pos p) (Z.pos d) ltac:(lia) Hrange) as Hq.
    destruct (Z.eqb_spec (rne (Z.pos p) (Z.pos d)) (2 ^ 53)).
    + destruct (Z.leb_spec (0 + Z.pos d + 1) 971); [|lia].
      eexists _, _. split; [reflexivity|]. split; [simpl; lia | lia].
    + destruct (Z.leb_spec (0 + Z.pos d) 971); [|lia].
      eexists _, _. split; [reflexivity|]. rewrite Z2Pos.id by lia. lia.
  - set (mz := Pos.iter xO p d).
    assert (Hmz : Z.pos mz = Z.pos p * 2 ^ Z.pos d) by apply iter_xO.
    assert (Hd' : Z.pos d = 52 - Z.log2 (Z.pos p)) by lia.
    assert (Hlt : 2 ^ 52 <= Z.pos mz < 2 ^ 53).
    { rewrite Hmz.
      replace 52 with (Z.log2 (Z.pos p) + Z.pos d) at 1 by lia.
      replace 53 with (Z.succ (Z.log2 (Z.pos p)) + Z.pos d) by lia.
      rewrite !Z.pow_add_r by lia.
      assert (0 < 2 ^ Z.pos d) by (apply Z.pow_pos_nonneg; lia). nia. }
    assert (Hlz : Z.log2 (Z.pos mz) = 52) by (apply Z.log2_unique; lia).
    rewrite binary_round_aux_exact by (rewrite Hlz; lia).
    rewrite Hlz. change (52 + 1 - 53) with 0.
    change (rne (Z.pos mz) 0) with (Z.pos mz). cbv zeta.
    destruct (Z.eqb_spec (Z.pos mz) (2 ^ 53)); [lia|].
    destruct (Z.leb_spec (Z.log2 (Z.pos p) + 1 + 0 - 53 + 0) 971); [|lia].
    eexists _, _. split; [reflexivity|]. cbn [Z.to_pos]. lia.
Qed.


Lemma trunc_scaled m e D :
  0 <= D -> 0 <= e + D ->
  (if 0 <=? e then m * 2 ^ e else m / 2 ^ (- e)) = (m * 2 ^ (e + D)) / 2 ^ D.
Proof.
  intros HD HeD.
  assert (HpD : 0 < 2 ^ D) by (apply Z.pow_pos_nonneg; lia).
  destruct (Z.leb_spec 0 e) as [He|He].
  - rewrite Z.pow_add_r, Z.mul_assoc, Z.div_mul by lia. reflexivity.
  - replace D with (- e + (e + D)) at 2 by lia.
    rewrite (Z.pow_add_r 2 (- e)) by lia.
    assert (0 < 2 ^ (e + D)) by (apply Z.pow_pos_nonneg; lia).
    assert (0 < 2 ^ (- e)) by (apply Z.pow_pos_nonneg; lia).
    rewrite Z.div_mul_cancel_r by lia. reflexivity.
Qed.

(** The product of a normal binary64 number with a fraction in [0.5, 1):
    its integer part is the floor of a numerator [V] that is within one
    part in [2^53] of the exact product of the mantissas. *)
Lemma mul_fraction_shape mx ex mc :
  2 ^ 52 <= Z.pos mx < 2 ^ 53 -> -52 <= ex <= 11 ->
  2 ^ 52 <= Z.pos mc < 2 ^ 53 ->
  exists V,
    int_of_float (float_mul (S754_finite false mx ex) (S754_finite false mc (-53)))
    = Ok (V / 2 ^ (53 - ex))
    /\ 2 ^ 53 * Z.abs (V - Z.pos mx * Z.pos mc) <= Z.pos mx * Z.pos mc.
Proof.
  intros Hmx Hex Hmc.
  unfold float_mul, SFmul. cbn [xorb].
  rewrite Pos2Z.inj_mul.
  remember (Z.pos mx * Z.pos mc) as M eqn:HMdef.
  assert (HM : 2 ^ 104 <= M < 2 ^ 106) by (subst M; nia).
  pose proof (Z.log2_spec M ltac:(lia)) as Hlog.
  assert (Hl1 : 104 <= Z.log2 M) by (apply Z.log2_le_pow2; lia).
  assert (Hl2 : Z.log2 M < 106) by (apply Z.log2_lt_pow2; lia).
  set (k := Z.log2 M + 1 - 53).
  assert (Hk : 52 <= k <= 53) by (subst k; lia).
  assert (Hrange : 2 ^ (52 + k) <= M < 2 ^ (53 + k)).
  { subst k. replace (52 + (Z.log2 M + 1 - 53)) with (Z.log2 M) by lia.
    replace (53 + (Z.log2 M + 1 - 53)) with (Z.succ (Z.log2 M)) by lia.
    exact Hlog. }
  pose proof (rne_range M k ltac:(lia) Hrange) as Hq.
  pose proof (rne_error M k ltac:(lia) ltac:(lia)) as Herr.
  assert (Hpk : 0 < 2 ^ k) by (apply Z.pow_pos_nonneg; lia).
  exists (rne M k * 2 ^ k). split.
  - clear HMdef. destruct M as [|pm|pm]; try lia.
    rewrite (binary_round_aux_exact false pm (ex + -53)) by (fold k; lia).
    fold k. cbv zeta.
    destruct (Z.eqb_spec (rne (Z.pos pm) k) (2 ^ 53)) as [Heq|Hne].
    + destruct (Z.leb_spec (ex + -53 + k + 1) 971); [|lia].
      cbn [int_of_float]. f_equal.
      rewrite (trunc_scaled _ _ (53 - ex)) by lia.
      f_equal. rewrite Heq.
      replace (ex + -53 + k + 1 + (53 - ex)) with (Z.succ k) by lia.
      rewrite Z.pow_succ_r by lia. change (Z.pos (Z.to_pos (2 ^ 52))) with (2 ^ 52).
      change (2 ^ 53) with (2 ^ 52 * 2). lia.
    + destruct (Z.leb_spec (ex + -53 + k) 971); [|lia].
      cbn [int_of_float]. f_equal.
      rewrite (trunc_scaled _ _ (53 - ex)) by lia.
      f_equal. rewrite Z2Pos.id by lia.
      f_equal. f_equal. lia.
  - rewrite Z.pow_add_r in Hrange by lia. lia.
Qed.

Lemma int_times_float_zero n s :
  0 <= n < 2 ^ 63 -> int_times_float n (S754_zero s) = Ok 0.
Proof.
  intros Hn. unfold int_times_float.
  destruct (Z.eq_dec n 0) as [->|Hz]; [reflexivity|].
  destruct (float_of_int_pos n ltac:(lia)) as (mx & ex & -> & _).
  reflexivity.
Qed.

(** Monotonicity of [int(n * c)] in the fraction [c], for two fractions
    in [0.5, 1) that are further apart than the rounding error. *)
Lemma int_times_float_mono n mc mc' :
  0 <= n < 2 ^ 63 ->
  2 ^ 52 <= Z.pos mc < 2 ^ 53 -> 2 ^ 52 <= Z.pos mc' < 2 ^ 53 ->
  Z.pos mc * (2 ^ 53 + 1) <= Z.pos mc' * (2 ^ 53 - 1) ->
  exists a b,
    int_times_float n (S754_finite false mc (-53)) = Ok a
    /\ int_times_float n (S754_finite false mc' (-53)) = Ok b
    /\ 0 <= a <= b.
Proof.
  intros Hn Hmc Hmc' Hgap. unfold int_times_float.
  destruct (Z.eq_dec n 0) as [->|Hz].
  { exists 0, 0. repeat split; lia. }
  destruct (float_of_int_pos n ltac:(lia)) as (mx & ex & -> & Hmx & Hex).
  cbn [rbind].
  destruct (mul_fraction_shape mx ex mc Hmx Hex Hmc) as (V & -> & HV).
  destruct (mul_fraction_shape mx ex mc' Hmx Hex Hmc') as (V' & -> & HV').
  exists (V / 2 ^ (53 - ex)), (V' / 2 ^ (53 - ex)).
  assert (Hp : 0 < 2 ^ (53 - ex)) by (apply Z.pow_pos_nonneg; lia).
  repeat split.
  - apply Z.div_pos; lia.
  - apply Z.div_le_mono; [lia|]. nia.
Qed.

End PyFloatFacts.

(** ** Split slicing in [generate_datasets] *)

Module Splits.
Import PyFloat PyList Types Api PyFloatFacts.

Lemma slice_then_rest {A} (l : list A) a b :
  0 <= a <= b ->
  slice l a b ++ skipn (Z.to_nat b) l = skipn (Z.to_nat a) l.
Proof.
  intros Hab. unfold slice, adjust_index.
  destruct (Z.ltb_spec a 0) as [?|_]; [lia|].
  destruct (Z.ltb_spec b 0) as [?|_]; [lia|].
  destruct (Z.le_gt_cases (Z.of_nat (length l)) a) as [Hge|Hlt].
  - rewrite (drop_ge l (Z.to_nat a)), (drop_ge l (Z.to_nat b)) by lia.
    rewrite drop_ge by lia. now rewrite firstn_nil.
  - rewrite (Z.min_l a) by lia.
    destruct (Z.le_gt_cases (Z.of_nat (length l)) b) as [Hgb|Hlb].
    + rewrite (Z.min_r b) by lia. rewrite (drop_ge l (Z.to_nat b)) by lia.
      rewrite take_ge by (rewrite length_drop; lia). apply app_nil_r.
    + rewrite (Z.min_l b) by lia.
      replace (Z.to_nat b) with (Z.to_nat a + Z.to_nat (b - a))%nat by lia.
      rewrite <- drop_drop. apply take_drop.
Qed.

Lemma slice_subset {A} (l : list A) a b x :
  x ∈ slice l a b -> x ∈ l.
Proof.
  unfold slice. intros H.
  set (lo := Z.to_nat (adjust_index (Z.of_nat (length l)) a)) in *.
  set (n := Z.to_nat (adjust_index (Z.of_nat (length l)) b
                      - adjust_index (Z.of_nat (length l)) a)) in *.
  rewrite <- (take_drop lo l). apply elem_of_app. right.
  rewrite <- (take_drop n (drop lo l)). apply elem_of_app. now left.
Qed.

Lemma slice_partition {A} (l : list A) a1 a2 a3 :
  0 <= a1 <= a2 -> a2 <= a3 ->
  l = slice l 0 a1 ++ slice l a1 a2 ++ slice l a2 a3 ++ skipn (Z.to_nat a3) l.
Proof.
  intros H1 H2.
  rewrite (slice_then_rest l a2 a3), (slice_then_rest l a1 a2) by lia.
  rewrite (slice_then_rest l 0 a1) by lia. reflexivity.
Qed.

(** The three boundaries of the default split are computed without
    error and are ordered. *)
Lemma default_split_indices n :
  0 <= n < 2 ^ 63 ->
  exists a1 a2 a3,
    int_times_float n zero = Ok 0
    /\ int_times_float n lit_0_8 = Ok a1
    /\ int_times_float n lit_0_9 = Ok a2
    /\ int_times_float n lit_0_99 = Ok a3
    /\ 0 <= a1 <= a2 /\ a2 <= a3.
Proof.
  intros Hn.
  destruct (int_times_float_mono n 7205759403792794 8106479329266893 Hn)
    as (a1 & a2 & H1 & H2 & H12); [lia..|].
  destruct (int_times_float_mono n 8106479329266893 8917127262193582 Hn)
    as (a2' & a3 & H2' & H3 & H23); [lia..|].
  fold lit_0_8 in H1. fold lit_0_9 in H2, H2'. fold lit_0_99 in H3.
  assert (a2' = a2) as -> by congruence.
  exists a1, a2, a3. repeat split; try assumption; try lia.
  apply int_times_float_zero. exact Hn.
Qed.

Lemma split_indices_1000 :
  int_times_float 1000 lit_0_8 = Ok 800
  /\ int_times_float 1000 lit_0_9 = Ok 900
  /\ int_times_float 1000 lit_0_99 = Ok 990.
Proof. repeat split; vm_compute; reflexivity. Qed.

Section Default.
Variable ext : Externals.

Lemma generate_datasets_default_unfold (songs : list string) a1 a2 a3 :
  let n := Z.of_nat (length songs) in
  int_times_float n zero = Ok 0 ->
  int_times_float n lit_0_8 = Ok a1 ->
  int_times_float n lit_0_9 = Ok a2 ->
  int_times_float n lit_0_99 = Ok a3 ->
  forall w,
    generate_datasets ext songs default_config w
    = ((emit (Processing Train) ;;;
        process_split ext Train (slice songs 0 a1) default_config) ;;;
       (emit (Processing Val) ;;;
        process_split ext Val (slice songs a1 a2) default_config) ;;;
       (emit (Processing Test) ;;;
        process_split ext Test (slice songs a2 a3) default_config) ;;;
       ret tt) w.
Proof.
  intros n H0 H1 H2 H3 w. unfold generate_datasets, generate_phase.
  change (phase_splits default_config)
    with [(Train, (zero, lit_0_8)); (Val, (lit_0_8, lit_0_9));
          (Test, (lit_0_9, lit_0_99))].
  cbn [for_each fst snd]. unfold bind at 1 3 5.
  cbn [emit]. unfold bind, lift. fold n. rewrite H0, H1, H2, H3. reflexivity.
Qed.

(** C1.  For a list of [N] song folders ([N] below [2^63], the bound on
    the length of a Python list) and the default [data_split],
    [generate_datasets] runs exactly the three iterations train, val,
    test on the slices [songs[int(N*0.0):int(N*0.8)]],
    [songs[int(N*0.8):int(N*0.9)]] and [songs[int(N*0.9):int(N*0.99)]].
    The boundaries are ordered, so the slices are contiguous and
    disjoint: together with the unused tail they partition the list, and
    without repeated folders no folder is in two splits.  For [N = 1000]
    the slices are [songs[0:800]], [songs[800:900]], [songs[900:990]] and
    [songs[990:1000]] is in no split. *)
Theorem generate_datasets_default_splits (songs : list string) :
  Z.of_nat (length songs) < 2 ^ 63 ->
  exists a1 a2 a3 : Z,
    let n := Z.of_nat (length songs) in
    let train := slice songs 0 a1 in
    let val := slice songs a1 a2 in
    let test := slice songs a2 a3 in
    int_times_float n zero = Ok 0
    /\ int_times_float n lit_0_8 = Ok a1
    /\ int_times_float n lit_0_9 = Ok a2
    /\ int_times_float n lit_0_99 = Ok a3
    /\ (forall w,
          generate_datasets ext songs default_config w
          = ((emit (Processing Train) ;;;
              process_split ext Train train default_config) ;;;
             (emit (Processing Val) ;;;
              process_split ext Val val default_config) ;;;
             (emit (Processing Test) ;;;
              process_split ext Test test default_config) ;;;
             ret tt) w)
    /\ 0 <= a1 <= a2 /\ a2 <= a3
    /\ songs = train ++ val ++ test ++ skipn (Z.to_nat a3) songs
    /\ (NoDup songs -> NoDup (train ++ val ++ test))
    /\ (length songs = 1000%nat ->
        train = firstn 800 songs
        /\ val = firstn 100 (skipn 800 songs)
        /\ test = firstn 90 (skipn 900 songs)
        /\ songs = train ++ val ++ test ++ skipn 990 songs).
Proof.
  intros Hlen.
  destruct (default_split_indices (Z.of_nat (length songs)) ltac:(lia))
    as (a1 & a2 & a3 & H0 & H1 & H2 & H3 & H12 & H23).
  exists a1, a2, a3. cbv zeta.
  pose proof (slice_partition songs a1 a2 a3 H12 H23) as Hpart.
  do 4 (split; [assumption|]).
  split; [|split; [lia|split; [lia|split; [exact Hpart|split]]]].
  - now apply generate_datasets_default_unfold.
  - intros Hnd. rewrite Hpart in Hnd. rewrite !app_assoc in Hnd.
    apply NoDup_app in Hnd as (Hnd & _). now rewrite <- !app_assoc in Hnd.
  - intros L. rewrite L in H1, H2, H3.
    change (Z.of_nat 1000) with 1000 in H1, H2, H3.
    destruct split_indices_1000 as (E1 & E2 & E3).
    assert (a1 = 800) by congruence.
    assert (a2 = 900) by congruence.
    assert (a3 = 990) by congruence. subst a1 a2 a3.
    repeat split; try exact Hpart;
      unfold slice, adjust_index; rewrite L; reflexivity.
Qed.

End Default.

Lemma generate_datasets_default_splits_witness :
  Z.of_nat (length Sample.ten_songs) < 2 ^ 63
  /\ exists a1 a2 a3,
       Sample.ten_songs
       = slice Sample.ten_songs 0 a1 ++ slice Sample.ten_songs a1 a2
         ++ slice Sample.ten_songs a2 a3
         ++ skipn (Z.to_nat a3) Sample.ten_songs.
Proof.
  split; [reflexivity|].
  destruct (generate_datasets_default_splits Sample.externals Sample.ten_songs
              eq_refl)
    as (a1 & a2 & a3 & _ & _ & _ & _ & _ & _ & _ & Hpart & _).
  exists a1, a2, a3. exact Hpart.
Defined.

End Splits.

(** ** Song discovery *)

Module DiscoveryFacts.
Import Discovery.








End DiscoveryFacts.

(** ** [infinite2zero] *)

Module CoercionFacts.
Import PyFloat Frame Rounding.











End CoercionFacts.

(** ** Column-wise updates *)

Module FrameFacts.
Import PyFloat Frame CoercionFacts.

Lemma rmapM_Forall2 {A B} (f : A -> result B) l l' :
  rmapM f l = Ok l' <-> Forall2 (fun x y => f x = Ok y) l l'.
Proof.
  revert l'. induction l as [|x l IH]; intros l'; cbn [rmapM].
  - split; [intros [= <-]; constructor | inversion 1; reflexivity].
  - split.
    + destruct (f x) as [y|e] eqn:Ex; cbn [rbind]; [|discriminate].
      destruct (rmapM f l) as [ys|e] eqn:El; cbn [rbind]; [|discriminate].
      intros [= <-]. constructor; [exact Ex | now apply IH].
    + inversion 1 as [|? y ? ys Hx Hl]; subst. rewrite Hx. cbn [rbind].
      apply IH in Hl. now rewrite Hl.
Qed.

Lemma rmapM_ext {A B} (f g : A -> result B) l :
  (forall x, x ∈ l -> f x = g x) -> rmapM f l = rmapM g l.
Proof.
  induction l as [|x l IH]; intros H; cbn [rmapM]; [reflexivity|].
  rewrite (H x) by (left). rewrite IH; [reflexivity|].
  intros y Hy. apply H. now right.
Qed.




Lemma apply_column_inv f col df df' :
  apply_column f col df = Ok df' ->
  exists vs vs',
    columns df !! col = Some vs /\ rmapM f vs = Ok vs'
    /\ df' = set_column df col vs'.
Proof.
  unfold apply_column, get_column.
  destruct (columns df !! col) as [vs|]; cbn [rbind]; [|discriminate].
  destruct (rmapM f vs) as [vs'|] eqn:E; cbn [rbind]; [|discriminate].
  intros [= <-]. eauto.
Qed.

(** A loop over distinct columns rewrites exactly those columns, each
    from its original contents. *)
Lemma apply_columns_distinct f cols :
  NoDup cols ->
  forall df df',
    apply_columns f cols df = Ok df' ->
    nrows df' = nrows df
    /\ forall col,
         (col ∈ cols ->
          exists vs vs', columns df !! col = Some vs
                         /\ rmapM (f col) vs = Ok vs'
                         /\ columns df' !! col = Some vs')
         /\ (col ∉ cols -> columns df' !! col = columns df !! col).
Proof.
  induction 1 as [|c rest Hc Hnd IH]; intros df df'; cbn [apply_columns].
  - intros [= <-]. split; [reflexivity|]. intros col. split.
    + intros Hin. now apply elem_of_nil in Hin.
    + reflexivity.
  - destruct (apply_column (f c) c df) as [df1|] eqn:E1; cbn [rbind];
      [|discriminate].
    intros Hrest. apply apply_column_inv in E1 as (vs & vs' & Hvs & Hm & ->).
    destruct (IH _ _ Hrest) as (Hn & Hcols). split; [exact Hn|].
    intros col. destruct (Hcols col) as (Hin & Hout). split.
    + intros Hcol. apply elem_of_cons in Hcol as [->|Hcol].
      * exists vs, vs'. repeat split; try assumption.
        rewrite (proj2 (Hcols c) Hc). cbn. apply lookup_insert_eq.
      * destruct (Hin Hcol) as (us & us' & Hus & Hm' & Hd).
        cbn in Hus. rewrite lookup_insert_ne in Hus by (intros ->; contradiction).
        eauto.
    + intros Hcol. apply not_elem_of_cons in Hcol as (Hne & Hcol).
      rewrite (Hout Hcol). cbn. now rewrite lookup_insert_ne.
Qed.

Lemma apply_columns_total f cols :
  NoDup cols ->
  forall df,
    (forall col vs, col ∈ cols -> columns df !! col = Some vs ->
                    exists vs', rmapM (f col) vs = Ok vs') ->
    (forall col, col ∈ cols -> is_Some (columns df !! col)) ->
    exists df', apply_columns f cols df = Ok df'.
Proof.
  induction 1 as [|c rest Hc Hnd IH]; intros df Hok Hsome; cbn [apply_columns].
  - eauto.
  - destruct (Hsome c ltac:(left)) as (vs & Hvs).
    destruct (Hok c vs ltac:(left) Hvs) as (vs' & Hm).
    unfold apply_column, get_column. rewrite Hvs. cbn [rbind]. rewrite Hm.
    cbn [rbind]. apply IH.
    + intros col us Hcol Hus. cbn in Hus.
      rewrite lookup_insert_ne in Hus by (intros ->; contradiction).
      apply (Hok col us); [now right | exact Hus].
    + intros col Hcol. cbn.
      rewrite lookup_insert_ne by (intros ->; contradiction).
      apply Hsome. now right.
Qed.


End FrameFacts.

(** ** [normalize_columns] *)

Module NormalizeFacts.
Import PyFloat Frame Types Api FrameFacts.

Lemma columns_to_transform_spec cols df col :
  col ∈ columns_to_transform cols df
  <-> col ∈ cols /\ is_Some (columns df !! col).
Proof.
  unfold columns_to_transform.
  rewrite list_elem_of_filter, elem_of_remove_dups. tauto.
Qed.

Lemma columns_to_transform_NoDup cols df :
  NoDup (columns_to_transform cols df).
Proof. apply NoDup_filter, NoDup_remove_dups. Qed.

Lemma normalize_cell_float A stats col x m s :
  stat_mean stats !! col = Some (NScalar m) ->
  stat_std stats !! col = Some (NScalar s) ->
  normalize_cell A stats col (CFloat x)
  = Ok (CFloat (fdiv A (fsub A x m) (fadd A s lit_1e_6))).
Proof.
  intros Hm Hs. unfold normalize_cell, stat_lookup. now rewrite Hm, Hs.
Qed.

Lemma normalize_cell_array A stats col xs ms ss :
  stat_mean stats !! col = Some (NVector ms) ->
  stat_std stats !! col = Some (NVector ss) ->
  length ms = length xs -> length ss = length xs ->
  normalize_cell A stats col (CArray xs)
  = Ok (CArray (zip_with (fdiv A) (zip_with (fsub A) xs ms)
                         (map (fun s => fadd A s lit_1e_6) ss))).
Proof.
  intros Hm Hs Lm Ls. unfold normalize_cell, stat_lookup.
  rewrite Hm, Hs. cbn [rbind nd_of_cell broadcast].
  rewrite Lm, Nat.eqb_refl. cbn [rbind broadcast].
  rewrite length_zip_with, length_map, Lm, Ls, Nat.min_id, Nat.eqb_refl.
  reflexivity.
Qed.

Section WithExternals.
Variable ext : Externals.

Lemma normalize_columns_unfold df config w :
  normalize_columns ext df config w
  = let w' := {| action_word_model := action_word_model w;
                 stats_file := stats_file w;
                 datasets := datasets w;
                 trace := trace w ++ [ReadStats] |} in
    match stats_file w with
    | Some stats =>
        (transform (elementwise_arith ext) stats
           (cols_to_normalize (dataset config)) df, w')
    | None => (Raise FileNotFoundError, w')
    end.
Proof.
  unfold normalize_columns, read_stats, bind, emit, lift. cbn.
  destruct (stats_file w) as [stats|]; [|reflexivity].
  destruct (transform _ _ _ _); reflexivity.
Qed.

(** The columns that are rewritten are not "the columns present in both
    the table and the stats" where the persisted statistics and the
    configured columns differ: here mfcc is a column of the table and of
    the statistics, [cols_to_normalize] lists prev only, and mfcc is
    returned as it was although the affine map would change it. *)
Lemma normalize_columns_follows_config :
  let df := Sample.song_table "a" 3 5 7 in
  let stats := Sample.stale_stats in
  let config := Sample.config_with_cols ["prev"]%string in
  let A := elementwise_arith Sample.externals in
  is_Some (columns df !! "mfcc"%string)
  /\ is_Some (stat_mean stats !! "mfcc"%string)
  /\ is_Some (stat_std stats !! "mfcc"%string)
  /\ (exists df',
        fst (normalize_columns Sample.externals df config
               (Sample.world_with_stats stats)) = Ok df'
        /\ columns df' !! "mfcc"%string = columns df !! "mfcc"%string)
  /\ (exists vs vs',
        columns df !! "mfcc"%string = Some vs
        /\ rmapM (normalize_cell A stats "mfcc") vs = Ok vs'
        /\ vs' <> vs).
Proof.
  cbv zeta. split; [|split; [|split; [|split]]].
  - vm_compute. eauto.
  - vm_compute. eauto.
  - vm_compute. eauto.
  - eexists. split; [vm_compute; reflexivity|]. vm_compute. reflexivity.
  - eexists _, _. split; [vm_compute; reflexivity|].
    split; [vm_compute; reflexivity|]. discriminate.
Qed.

(** C5, amended.  With statistics on disk, [normalize_columns] rewrites
    exactly the columns that are both listed in
    [config.dataset.cols_to_normalize] and present in the table: each
    cell [x] of such a column becomes
    [(x - mean[col]) / (std[col] + 1e-6)], elementwise, with the
    binary64 literal 1e-6; every other column and the number of rows are
    unchanged.  The call returns whenever the arithmetic of each of those
    cells does, and raises when the statistics lack a listed, non-empty
    column of the table.  When the statistics were fitted for the same
    column list, the rewritten columns are the columns present in both
    the table and the statistics. *)
Theorem normalize_columns_affine
    (df : DataFrame) (config : Config) (w : World) (stats : Stats) :
  stats_file w = Some stats ->
  let A := elementwise_arith ext in
  let cols := cols_to_normalize (dataset config) in
  let touched col := col ∈ cols /\ is_Some (columns df !! col) in
  ((forall col vs, touched col -> columns df !! col = Some vs ->
                   exists vs', rmapM (normalize_cell A stats col) vs = Ok vs') ->
   exists df', fst (normalize_columns ext df config w) = Ok df')
  /\ (forall df',
        fst (normalize_columns ext df config w) = Ok df' ->
        nrows df' = nrows df
        /\ forall col,
             (touched col ->
              exists vs vs',
                columns df !! col = Some vs
                /\ columns df' !! col = Some vs'
                /\ Forall2 (fun x y => normalize_cell A stats col x = Ok y)
                           vs vs')
             /\ (~ touched col -> columns df' !! col = columns df !! col))
  /\ (forall col x m s,
        stat_mean stats !! col = Some (NScalar m) ->
        stat_std stats !! col = Some (NScalar s) ->
        normalize_cell A stats col (CFloat x)
        = Ok (CFloat (fdiv A (fsub A x m) (fadd A s lit_1e_6))))
  /\ (forall col xs ms ss,
        stat_mean stats !! col = Some (NVector ms) ->
        stat_std stats !! col = Some (NVector ss) ->
        length ms = length xs -> length ss = length xs ->
        normalize_cell A stats col (CArray xs)
        = Ok (CArray (zip_with (fdiv A) (zip_with (fsub A) xs ms)
                               (map (fun s => fadd A s lit_1e_6) ss))))
  /\ (forall col x vs,
        touched col -> columns df !! col = Some (x :: vs) ->
        stat_mean stats !! col = None \/ stat_std stats !! col = None ->
        exists e, fst (normalize_columns ext df config w) = Raise e)
  /\ (dom (stat_mean stats) = list_to_set cols ->
      forall col,
        touched col
        <-> is_Some (columns df !! col) /\ is_Some (stat_mean stats !! col)).
Proof.
  intros Hstats A cols touched.
  rewrite normalize_columns_unfold, Hstats. cbn [fst]. unfold transform.
  fold A. fold cols.
  pose proof (columns_to_transform_NoDup cols df) as Hnd.
  assert (Hinv : forall df',
    apply_columns (normalize_cell A stats) (columns_to_transform cols df) df
    = Ok df' ->
    nrows df' = nrows df
    /\ forall col,
         (touched col ->
          exists vs vs',
            columns df !! col = Some vs
            /\ columns df' !! col = Some vs'
            /\ Forall2 (fun x y => normalize_cell A stats col x = Ok y) vs vs')
         /\ (~ touched col -> columns df' !! col = columns df !! col)).
  { intros df' Hok.
    destruct (apply_columns_distinct _ _ Hnd _ _ Hok) as (Hn & Hcols).
    split; [exact Hn|]. intros col. destruct (Hcols col) as (Hin & Hout).
    split.
    - intros Ht. apply columns_to_transform_spec in Ht.
      destruct (Hin Ht) as (vs & vs' & Hvs & Hm & Hd).
      exists vs, vs'. repeat split; try assumption. now apply rmapM_Forall2.
    - intros Ht. apply Hout. now rewrite columns_to_transform_spec. }
  split; [|split; [exact Hinv|split; [|split; [|split]]]].
  - intros Hcells. apply apply_columns_total; [exact Hnd| |].
    + intros col vs Hcol. apply Hcells. now apply columns_to_transform_spec.
    + intros col Hcol. now apply columns_to_transform_spec in Hcol.
  - intros. now apply normalize_cell_float.
  - intros. now apply normalize_cell_array.
  - intros col x vs Ht Hvs Hmiss.
    destruct (apply_columns (normalize_cell A stats)
                (columns_to_transform cols df) df) as [df'|e] eqn:E; [|eauto].
    exfalso. destruct (Hinv df' eq_refl) as (_ & Hcols).
    destruct (proj1 (Hcols col) Ht) as (us & us' & Hus & _ & HF).
    rewrite Hvs in Hus. injection Hus as <-.
    inversion HF as [|? y ? ? Hx _]; subst.
    unfold normalize_cell, stat_lookup in Hx.
    destruct Hmiss as [Hm|Hs].
    + rewrite Hm in Hx. discriminate.
    + rewrite Hs in Hx.
      destruct (stat_mean stats !! col); cbn [rbind] in Hx; [|discriminate].
      destruct (nd_of_cell x); cbn [rbind] in Hx; [|discriminate].
      destruct (broadcast _ _ _); cbn [rbind] in Hx; discriminate.
  - intros Hdom col. unfold touched.
    rewrite <- (elem_of_dom (stat_mean stats)), Hdom, elem_of_list_to_set.
    tauto.
Qed.

End WithExternals.

Lemma normalize_columns_affine_witness :
  stats_file (Sample.world_with_stats Sample.stale_stats)
  = Some Sample.stale_stats
  /\ normalize_cell (elementwise_arith Sample.externals) Sample.stale_stats "prev"
       (CFloat (Sample.fl 3))
     = Ok (CFloat (fdiv (elementwise_arith Sample.externals)
                        (fsub (elementwise_arith Sample.externals) (Sample.fl 3) (Sample.fl 1))
                        (fadd (elementwise_arith Sample.externals) (Sample.fl 2) lit_1e_6))).
Proof.
  split; [reflexivity|].
  destruct (normalize_columns_affine Sample.externals
              (Sample.song_table "a" 3 5 7)
              (Sample.config_with_cols ["prev"; "mfcc"]%string)
              (Sample.world_with_stats Sample.stale_stats)
              Sample.stale_stats eq_refl) as (_ & _ & Hfloat & _).
  apply Hfloat; vm_compute; reflexivity.
Defined.

End NormalizeFacts.

(** ** [save_normalization_stats] *)

Module FitFacts.
Import PyFloat Frame Types Api CoercionFacts FrameFacts.











Lemma column_std_example :
  column_std arith_float32 [CFloat (Sample.fl 0); CFloat (Sample.fl 2)]
  = Ok (NScalar (round_to 24 128 (Sample.fl 1))).
Proof. vm_compute. reflexivity. Qed.

Section WithExternals.
Variable ext : Externals.



End WithExternals.


End FitFacts.

(** ** [df_post_processing] and [songs2dataset] *)

Module AssemblyFacts.
Import PyFloat Frame Types Api FrameFacts.

Lemma emit_add_events e w : emit e w = (Ok tt, add_events w [e]).
Proof. reflexivity. Qed.

Lemma add_events_app w es es' :
  add_events (add_events w es) es' = add_events w (es ++ es').
Proof. unfold add_events. cbn. now rewrite app_assoc. Qed.




Section WithExternals.
Variable ext : Externals.


Lemma no_song_survives {A B} (f : nat -> A -> B) (g : B -> option DataFrame)
    (l : list A) :
  (forall i x, l !! i = Some x -> g (f i x) = None) ->
  omap id (map g (imap f l)) = [].
Proof.
  revert f. induction l as [|x l IH]; intros f H; [reflexivity|].
  cbn [imap map omap]. rewrite (H 0%nat x eq_refl). cbn.
  apply IH. intros i y Hy. apply (H (S i) y Hy).
Qed.

Lemma songs2dataset_all_failed folders config w :
  all_failed ext folders config ->
  songs2dataset ext folders config w
  = (Ok None,
     add_events w (dataframe_events config folders
                   ++ [Warning CollectedZeroSongs])).
Proof.
  intros Hfail. unfold songs2dataset, dispatcher_inputs.
  assert (E : omap id
                (map (fun '(s, c, p) => process_song_folder ext s c p)
                   (imap (fun i s => (s, config, (i, length folders))) folders))
              = []).
  { apply no_song_survives. intros i s Hs. now apply Hfail. }
  unfold bind at 1. rewrite emit_add_events.
  unfold bind at 1, recalculate_mfcc_df_cache, dataframe_events.
  destruct (use_cache (audio_processing config)); cbn [ret];
    rewrite ?emit_add_events, ?add_events_app;
    (destruct (use_multiprocessing config); rewrite E; cbn [length Nat.eqb];
     unfold logging_warning, bind; rewrite emit_add_events, add_events_app;
     reflexivity).
Qed.

Lemma process_split_none phase folders config w w1 :
  songs2dataset ext folders config w = (Ok None, w1) ->
  process_split ext phase folders config w
  = (Ok tt, add_events w1 [Warning (SkippedDataset phase)]).
Proof.
  intros H. unfold process_split, bind. rewrite H. reflexivity.
Qed.

Lemma generate_phase_skipped songs config phase split a b w :
  int_times_float (Z.of_nat (length songs)) (fst split) = Ok a ->
  int_times_float (Z.of_nat (length songs)) (snd split) = Ok b ->
  all_failed ext (PyList.slice songs a b) config ->
  generate_phase ext songs config (phase, split) w
  = (Ok tt,
     add_events w (Processing phase
                   :: dataframe_events config (PyList.slice songs a b)
                   ++ [Warning CollectedZeroSongs;
                       Warning (SkippedDataset phase)])).
Proof.
  intros Ha Hb Hfail. unfold generate_phase.
  unfold bind at 1. rewrite emit_add_events.
  unfold bind at 1, lift at 1. rewrite Ha.
  unfold bind at 1, lift at 1. rewrite Hb.
  rewrite (process_split_none phase _ config _ _
             (songs2dataset_all_failed _ _ _ Hfail)).
  rewrite !add_events_app. cbn [app]. now rewrite <- app_assoc.
Qed.

(** C7.  When every dispatcher result of a slice is null,
    [songs2dataset] logs a warning and returns None without raising;
    the loop body of [generate_datasets] then only logs that the split
    is skipped, returns normally, and the loop goes on with the phases
    that are left.  A corpus in which every song fails is run to the
    end: three skipped splits, no exception, no file written. *)
Theorem empty_split_is_skipped (songs : list string) (config : Config)
    (w : World) :
  (forall folders,
      all_failed ext folders config ->
      songs2dataset ext folders config w
      = (Ok None,
         add_events w (dataframe_events config folders
                       ++ [Warning CollectedZeroSongs])))
  /\ (forall phase folders w1,
        songs2dataset ext folders config w = (Ok None, w1) ->
        process_split ext phase folders config w
        = (Ok tt, add_events w1 [Warning (SkippedDataset phase)]))
  /\ (forall phase split rest a b,
        int_times_float (Z.of_nat (length songs)) (fst split) = Ok a ->
        int_times_float (Z.of_nat (length songs)) (snd split) = Ok b ->
        all_failed ext (PyList.slice songs a b) config ->
        for_each ((phase, split) :: rest) (generate_phase ext songs config) w
        = for_each rest (generate_phase ext songs config)
            (add_events w
               (Processing phase
                :: dataframe_events config (PyList.slice songs a b)
                ++ [Warning CollectedZeroSongs;
                    Warning (SkippedDataset phase)])))
  /\ (Z.of_nat (length songs) < 2 ^ 63 ->
      (forall s progress,
          s ∈ songs -> process_song_folder ext s default_config progress = None) ->
      exists train val test,
        generate_datasets ext songs default_config w
        = (Ok tt,
           add_events w
             [Processing Train; CreateDataframe train;
              Warning CollectedZeroSongs; Warning (SkippedDataset Train);
              Processing Val; CreateDataframe val;
              Warning CollectedZeroSongs; Warning (SkippedDataset Val);
              Processing Test; CreateDataframe test;
              Warning CollectedZeroSongs; Warning (SkippedDataset Test)])).
Proof.
  split; [|split; [|split]].
  - intros folders. apply songs2dataset_all_failed.
  - intros phase folders w1. apply process_split_none.
  - intros phase split rest a b Ha Hb Hfail. cbn [for_each]. unfold bind.
    now rewrite (generate_phase_skipped _ _ _ _ _ _ _ Ha Hb Hfail).
  - intros Hlen Hnone.
    assert (Hfail : forall a b,
               all_failed ext (PyList.slice songs a b) default_config).
    { intros a b i s Hs. apply Hnone.
      apply (Splits.slice_subset songs a b).
      now apply list_elem_of_lookup_2 with i. }
    destruct (Splits.default_split_indices (Z.of_nat (length songs))
                ltac:(lia))
      as (a1 & a2 & a3 & H0 & H1 & H2 & H3 & _).
    exists (PyList.slice songs 0 a1), (PyList.slice songs a1 a2),
           (PyList.slice songs a2 a3).
    unfold generate_datasets.
    change (phase_splits default_config)
      with [(Train, (zero, lit_0_8)); (Val, (lit_0_8, lit_0_9));
            (Test, (lit_0_9, lit_0_99))].
    cbn [for_each]. unfold bind.
    rewrite (generate_phase_skipped _ _ Train (zero, lit_0_8) _ _ _
               H0 H1 (Hfail _ _)).
    rewrite (generate_phase_skipped _ _ Val (lit_0_8, lit_0_9) _ _ _
               H1 H2 (Hfail _ _)).
    rewrite (generate_phase_skipped _ _ Test (lit_0_9, lit_0_99) _ _ _
               H2 H3 (Hfail _ _)).
    unfold ret. now rewrite !add_events_app.
Qed.

End WithExternals.


Lemma empty_split_is_skipped_witness :
  Z.of_nat (length ["broken"; "broken"]%string) < 2 ^ 63
  /\ fst (generate_datasets Sample.externals ["broken"; "broken"]%string
            default_config Sample.empty_world)
     = Ok tt.
Proof.
  split; [reflexivity|].
  destruct (empty_split_is_skipped Sample.externals
              ["broken"; "broken"]%string default_config Sample.empty_world)
    as (_ & _ & _ & Hall).
  destruct (Hall eq_refl) as (train & val & test & ->); [|reflexivity].
  intros s progress Hs.
  apply elem_of_cons in Hs as [->|Hs]; [reflexivity|].
  apply list_elem_of_singleton in Hs as ->. reflexivity.
Defined.

End AssemblyFacts.

(** ** Effects of a run on the statistics file *)

Module RunFacts.
Import PyFloat Frame Types Api FrameFacts AssemblyFacts.

(** *** Computations that only log *)

Lemma only_logs_ret {A} (a : A) : only_logs (ret a).
Proof.
  intros w. exists []. split; [|constructor].
  unfold add_events. cbn. rewrite app_nil_r. now destruct w.
Qed.

Lemma only_logs_lift {A} (r : result A) : only_logs (lift r).
Proof. apply (only_logs_ret tt). Qed.

Lemma only_logs_emit e :
  is_write_stats e = false -> is_read_stats e = false -> only_logs (emit e).
Proof. intros Hw Hr w. exists [e]. split; [reflexivity|]. now repeat constructor. Qed.

Lemma only_logs_bind {A B} (m : M A) (k : A -> M B) :
  only_logs m -> (forall a, only_logs (k a)) -> only_logs (bind m k).
Proof.
  intros Hm Hk w. unfold bind. destruct (Hm w) as (es & Hes & Hf).
  destruct (m w) as [[a|e] w1]; cbn [snd] in Hes; subst w1.
  - destruct (Hk a (add_events w es)) as (es' & Hes' & Hf').
    exists (es ++ es'). rewrite Hes', add_events_app. split; [reflexivity|].
    now apply Forall_app.
  - exists es. now split.
Qed.

Lemma only_logs_keeps_stats {A} (m : M A) : only_logs m -> keeps_stats m.
Proof.
  intros Hm w. destruct (Hm w) as (es & -> & Hf). cbn.
  repeat split. exists es. split; [reflexivity|].
  eapply Forall_impl; [exact Hf|]. now intros e [? _].
Qed.

(** *** Computations that never write the statistics file *)

Lemma keeps_stats_bind {A B} (m : M A) (k : A -> M B) :
  keeps_stats m -> (forall a, keeps_stats (k a)) -> keeps_stats (bind m k).
Proof.
  intros Hm Hk w. unfold bind.
  destruct (Hm w) as (Ha & Hs & es & Ht & Hf).
  destruct (m w) as [[a|e] w1]; cbn [snd] in *.
  - destruct (Hk a w1) as (Ha' & Hs' & es' & Ht' & Hf').
    rewrite Ha', Hs', Ht', Ha, Hs, Ht. repeat split.
    exists (es ++ es'). split; [now rewrite app_assoc | now apply Forall_app].
  - repeat split; try assumption. eauto.
Qed.

Lemma keeps_stats_ret {A} (a : A) : keeps_stats (ret a).
Proof. apply only_logs_keeps_stats, only_logs_ret. Qed.

Lemma keeps_stats_raise {A} e : keeps_stats (@raise A e).
Proof. apply (keeps_stats_ret tt). Qed.

Lemma keeps_stats_emit e : is_write_stats e = false -> keeps_stats (emit e).
Proof.
  intros He w. cbn. repeat split. exists [e]. split; [reflexivity|].
  now repeat constructor.
Qed.

Lemma keeps_stats_read_stats : keeps_stats read_stats.
Proof.
  unfold read_stats. apply keeps_stats_bind; [now apply keeps_stats_emit|].
  intros _ w.
  assert (H : snd (match stats_file w with
                   | Some s => (Ok s, w)
                   | None => (Raise FileNotFoundError, w)
                   end) = w) by (now destruct (stats_file w)).
  rewrite H. repeat split. exists []. split; [now rewrite app_nil_r|constructor].
Qed.

Lemma keeps_stats_write_dataset p df : keeps_stats (write_dataset p df).
Proof.
  intros w. cbn. repeat split. exists [WriteDataset p df].
  split; [reflexivity|]. now repeat constructor.
Qed.

Lemma keeps_stats_for_each {A} (l : list A) (body : A -> M unit) :
  (forall x, x ∈ l -> keeps_stats (body x)) -> keeps_stats (for_each l body).
Proof.
  induction l as [|x l IH]; intros H; cbn [for_each].
  - apply keeps_stats_ret.
  - apply keeps_stats_bind; [apply H; now left|].
    intros _. apply IH. intros y Hy. apply H. now right.
Qed.

(** *** Computations that depend on the input files alone *)

Lemma same_files_refl w : same_files w w.
Proof. now split. Qed.

Lemma reads_files_only_bind {A B} (m : M A) (k : A -> M B) :
  reads_files_only m -> (forall a, reads_files_only (k a)) ->
  reads_files_only (bind m k).
Proof.
  intros Hm Hk w w' Hw. unfold bind. destruct (Hm w w' Hw) as (Hr & Hs).
  destruct (m w) as [[a|e] w1], (m w') as [[a'|e'] w1']; cbn [fst snd] in *;
    try discriminate.
  - injection Hr as <-. now apply Hk.
  - injection Hr as <-. now split.
Qed.

Lemma reads_files_only_ret {A} (a : A) : reads_files_only (ret a).
Proof. intros w w' Hw. now split. Qed.






Lemma reads_files_only_for_each {A} (l : list A) (body : A -> M unit) :
  (forall x, reads_files_only (body x)) -> reads_files_only (for_each l body).
Proof.
  intros H. induction l as [|x l IH]; cbn [for_each].
  - apply reads_files_only_ret.
  - apply reads_files_only_bind; [apply H | intros _; exact IH].
Qed.

Section WithExternals.
Variable ext : Externals.

Lemma only_logs_df_post_processing df config :
  only_logs (df_post_processing ext df config).
Proof.
  intros w. unfold df_post_processing.
  destruct (action_word_model w) as [model|].
  - apply (only_logs_bind (lift _)); [apply only_logs_lift|]. intros values.
    apply (only_logs_bind (lift _)); [apply only_logs_lift|]. intros words.
    apply (only_logs_bind (lift _)); [apply only_logs_lift|]. intros vectors.
    apply only_logs_ret.
  - apply (only_logs_bind (logging_warning _)).
    + now apply only_logs_emit.
    + intros _. apply only_logs_ret.
Qed.

Lemma only_logs_recalculate folders config :
  only_logs (recalculate_mfcc_df_cache folders config).
Proof.
  unfold recalculate_mfcc_df_cache.
  destruct (use_cache (audio_processing config));
    [apply only_logs_ret | now apply only_logs_emit].
Qed.

Lemma only_logs_songs2dataset folders config :
  only_logs (songs2dataset ext folders config).
Proof.
  unfold songs2dataset. apply only_logs_bind; [now apply only_logs_emit|].
  intros _. apply only_logs_bind; [apply only_logs_recalculate|].
  intros _. destruct (use_multiprocessing config);
      (destruct (_ =? _)%nat;
       [apply only_logs_bind;
        [now apply only_logs_emit | intros; apply only_logs_ret]
       |apply only_logs_bind;
        [apply only_logs_df_post_processing | intros; apply only_logs_ret]]).
Qed.

Lemma keeps_stats_songs2dataset folders config :
  keeps_stats (songs2dataset ext folders config).
Proof. apply only_logs_keeps_stats, only_logs_songs2dataset. Qed.

Lemma keeps_stats_normalize_columns df config :
  keeps_stats (normalize_columns ext df config).
Proof.
  unfold normalize_columns. apply keeps_stats_bind;
    [apply keeps_stats_read_stats|].
  intros stats. apply (keeps_stats_ret tt).
Qed.

(** The val and test iterations never write the statistics file. *)
Lemma keeps_stats_process_split phase folders config :
  phase <> Train -> keeps_stats (process_split ext phase folders config).
Proof.
  intros Hp. unfold process_split.
  apply keeps_stats_bind; [apply keeps_stats_songs2dataset|].
  intros [df|]; [|now apply keeps_stats_emit].
  apply keeps_stats_bind.
  { destruct (check_consistency ext df);
      [apply keeps_stats_ret | apply keeps_stats_raise]. }
  intros _. destruct phase; try contradiction; cbn [phase_eqb];
    (apply keeps_stats_bind; [apply keeps_stats_ret|]; intros df1;
     apply keeps_stats_bind; [apply keeps_stats_normalize_columns|];
     intros df2; apply keeps_stats_write_dataset).
Qed.

Lemma keeps_stats_generate_phase songs config phase split :
  phase <> Train ->
  keeps_stats (generate_phase ext songs config (phase, split)).
Proof.
  intros Hp. unfold generate_phase.
  apply keeps_stats_bind; [now apply keeps_stats_emit|]. intros _.
  apply keeps_stats_bind; [apply (keeps_stats_ret tt)|]. intros a.
  apply keeps_stats_bind; [apply (keeps_stats_ret tt)|]. intros b.
  now apply keeps_stats_process_split.
Qed.








Lemma phase_splits_after_train config sp rest :
  phase_splits config = (Train, sp) :: rest ->
  forall item, item ∈ rest -> fst item <> Train.
Proof.
  unfold phase_splits, phases.
  destruct (zip (data_split (training config))
                (tail (data_split (training config))))
    as [|p1 [|p2 [|p3 l]]]; cbn; intros [= <- <-] item Hin.
  - now apply elem_of_nil in Hin.
  - apply list_elem_of_singleton in Hin as ->. discriminate.
  - apply elem_of_cons in Hin as [->|Hin]; [discriminate|].
    apply list_elem_of_singleton in Hin as ->. discriminate.
Qed.

Lemma keeps_stats_remaining songs config sp rest :
  phase_splits config = (Train, sp) :: rest ->
  keeps_stats (for_each rest (generate_phase ext songs config)).
Proof.
  intros Hsplits. apply keeps_stats_for_each. intros [phase split] Hin.
  apply keeps_stats_generate_phase.
  apply (phase_splits_after_train config sp rest Hsplits _ Hin).
Qed.

(** A val or test iteration with a table normalises it with the
    statistics file as it finds it. *)
Lemma process_split_reads_existing_stats phase folders config w2 df w3 :
  phase <> Train ->
  songs2dataset ext folders config w2 = (Ok (Some df), w3) ->
  check_consistency ext df = true ->
  stats_file w3 = stats_file w2
  /\ process_split ext phase folders config w2
     = match stats_file w2 with
       | None => (Raise FileNotFoundError, add_events w3 [ReadStats])
       | Some st =>
           match transform (elementwise_arith ext) st
                   (cols_to_normalize (dataset config)) df with
           | Ok df' =>
               (Ok tt,
                {| action_word_model := action_word_model w3;
                   stats_file := stats_file w3;
                   datasets := (phase, df') :: datasets w3;
                   trace := trace w3 ++ [ReadStats; WriteDataset phase df'] |})
           | Raise e => (Raise e, add_events w3 [ReadStats])
           end
       end.
Proof.
  intros Hp Hds Hcheck.
  destruct (only_logs_songs2dataset folders config w2) as (es & Hes & _).
  rewrite Hds in Hes. cbn [snd] in Hes. subst w3.
  split; [reflexivity|].
  unfold process_split, bind. rewrite Hds, Hcheck. cbn [ret].
  assert (Hphase : phase_eqb phase Train = false) by now destruct phase.
  rewrite Hphase. cbn [ret].
  rewrite (NormalizeFacts.normalize_columns_unfold ext). cbn.
  destruct (stats_file w2) as [st|] eqn:Est;
    [|unfold add_events; cbn; now rewrite Est].
  destruct (transform _ st _ df) as [df'|e];
    [|unfold add_events; cbn; now rewrite Est].
  unfold write_dataset. cbn. now rewrite <- app_assoc.
Qed.

(** C9, amended.  When every song of the train slice fails, the train
    iteration only logs and [generate_datasets] goes on with the
    remaining iterations; nothing in the run writes the statistics file,
    which is at the end what it was at the start.  A val or test
    iteration that gets a table normalises it with that pre-existing
    file: with no file the iteration raises FileNotFoundError, and with
    a file it applies those statistics (and raises only if that
    transform does, as when the file lacks a configured column of the
    table). *)
Theorem empty_train_uses_existing_stats
    (songs : list string) (config : Config) (w : World)
    (sp : pyfloat * pyfloat) (rest : list (Phase * (pyfloat * pyfloat)))
    (a b : Z) :
  phase_splits config = (Train, sp) :: rest ->
  int_times_float (Z.of_nat (length songs)) (fst sp) = Ok a ->
  int_times_float (Z.of_nat (length songs)) (snd sp) = Ok b ->
  all_failed ext (PyList.slice songs a b) config ->
  let w1 := add_events w
              (Processing Train
               :: dataframe_events config (PyList.slice songs a b)
               ++ [Warning CollectedZeroSongs;
                   Warning (SkippedDataset Train)]) in
  let final := snd (generate_datasets ext songs config w) in
  generate_datasets ext songs config w
  = for_each rest (generate_phase ext songs config) w1
  /\ stats_file final = stats_file w
  /\ (exists es, trace final = trace w ++ es
                 /\ Forall (fun e => is_write_stats e = false) es)
  /\ (forall phase folders w2 df w3,
        phase <> Train ->
        stats_file w2 = stats_file w ->
        songs2dataset ext folders config w2 = (Ok (Some df), w3) ->
        check_consistency ext df = true ->
        process_split ext phase folders config w2
        = match stats_file w with
          | None => (Raise FileNotFoundError, add_events w3 [ReadStats])
          | Some st =>
              match transform (elementwise_arith ext) st
                      (cols_to_normalize (dataset config)) df with
              | Ok df' =>
                  (Ok tt,
                   {| action_word_model := action_word_model w3;
                      stats_file := Some st;
                      datasets := (phase, df') :: datasets w3;
                      trace := trace w3
                               ++ [ReadStats; WriteDataset phase df'] |})
              | Raise e => (Raise e, add_events w3 [ReadStats])
              end
          end).
Proof.
  intros Hsplits Ha Hb Hfail w1 final.
  assert (Hrun : generate_datasets ext songs config w
                 = for_each rest (generate_phase ext songs config) w1).
  { unfold generate_datasets. rewrite Hsplits. cbn [for_each]. unfold bind.
    now rewrite (generate_phase_skipped ext _ _ Train sp _ _ _ Ha Hb Hfail). }
  split; [exact Hrun|].
  destruct (keeps_stats_remaining songs config sp rest Hsplits w1)
    as (_ & Hs & es & Ht & Hes).
  subst final. rewrite Hrun. split; [exact Hs|]. split.
  - eexists. rewrite Ht. unfold w1, add_events. cbn [trace].
    rewrite <- app_assoc. split; [reflexivity|].
    apply Forall_app. split; [|exact Hes]. unfold dataframe_events.
    destruct (use_cache (audio_processing config)); now repeat constructor.
  - intros phase folders w2 df w3 Hp Hw2 Hds Hcheck.
    destruct (process_split_reads_existing_stats phase folders config w2 df w3
                Hp Hds Hcheck) as (Hw3 & ->).
    rewrite Hw2. destruct (stats_file w) as [st|] eqn:Est; [|reflexivity].
    destruct (transform _ st _ df); [|reflexivity].
    now rewrite Hw3, Hw2.
Qed.

End WithExternals.


(** Such a run does not fail only when no statistics file exists: here
    the eight train songs fail, a statistics file exists, and the run
    still raises KeyError while normalising the val table, because the
    file has no entry for the mfcc column. *)
Lemma run_fails_with_existing_stats :
  let songs := Sample.failing_train_songs in
  let w := Sample.world_with_stats Sample.prev_stats in
  int_times_float (Z.of_nat (length songs)) zero = Ok 0
  /\ int_times_float (Z.of_nat (length songs)) lit_0_8 = Ok 8
  /\ all_failed Sample.externals (PyList.slice songs 0 8) default_config
  /\ stats_file w = Some Sample.prev_stats
  /\ fst (generate_datasets Sample.externals songs default_config w)
     = Raise KeyError.
Proof.
  cbv zeta. repeat split; try (vm_compute; reflexivity).
  intros i s Hs. apply list_elem_of_lookup_2 in Hs.
  change (PyList.slice Sample.failing_train_songs 0 8)
    with (replicate 8 "broken"%string) in *.
  apply elem_of_replicate in Hs as (-> & _). reflexivity.
Qed.

Lemma empty_train_uses_existing_stats_witness :
  let songs := Sample.failing_train_songs in
  let w := Sample.world_with_stats Sample.prev_stats in
  phase_splits default_config
  = (Train, (zero, lit_0_8))
    :: [(Val, (lit_0_8, lit_0_9)); (Test, (lit_0_9, lit_0_99))]
  /\ int_times_float (Z.of_nat (length songs)) zero = Ok 0
  /\ int_times_float (Z.of_nat (length songs)) lit_0_8 = Ok 8
  /\ all_failed Sample.externals (PyList.slice songs 0 8) default_config
  /\ stats_file (snd (generate_datasets Sample.externals songs default_config w))
     = Some Sample.prev_stats.
Proof.
  cbv zeta.
  assert (Hfail : all_failed Sample.externals
                    (PyList.slice Sample.failing_train_songs 0 8)
                    default_config).
  { intros i s Hs. apply list_elem_of_lookup_2 in Hs.
    change (PyList.slice Sample.failing_train_songs 0 8)
      with (replicate 8 "broken"%string) in *.
    apply elem_of_replicate in Hs as (-> & _). reflexivity. }
  assert (H0 : int_times_float
                 (Z.of_nat (length Sample.failing_train_songs))
                 (fst (zero, lit_0_8)) = Ok 0) by (vm_compute; reflexivity).
  assert (H1 : int_times_float
                 (Z.of_nat (length Sample.failing_train_songs))
                 (snd (zero, lit_0_8)) = Ok 8) by (vm_compute; reflexivity).
  split; [reflexivity|]. split; [exact H0|]. split; [exact H1|].
  split; [exact Hfail|].
  destruct (empty_train_uses_existing_stats Sample.externals
              Sample.failing_train_songs default_config
              (Sample.world_with_stats Sample.prev_stats)
              (zero, lit_0_8)
              [(Val, (lit_0_8, lit_0_9)); (Test, (lit_0_9, lit_0_99))]
              0 8 eq_refl H0 H1 Hfail) as (_ & Hstats & _).
  exact Hstats.
Defined.

End RunFacts.

(** ** Exact boundaries and sizes of the default splits *)

Module SplitSizes.
Import PyFloat PyList Types Api Rounding PyFloatFacts Splits AssemblyFacts.

(** Below [2^53] the conversion of an int to a float is exact. *)
Lemma float_of_int_exact n :
  1 <= n < 2 ^ 53 ->
  exists mx ex,
    float_of_int n = Ok (S754_finite false mx ex)
    /\ 2 ^ 52 <= Z.pos mx < 2 ^ 53 /\ -52 <= ex <= 0
    /\ Z.pos mx = n * 2 ^ (- ex).
Proof.
  intros Hn. destruct n as [|p|p]; try lia.
  unfold float_of_int, binary_normalize, binary_round.
  pose proof (Z.log2_spec (Z.pos p) ltac:(lia)) as Hlog.
  assert (Hl53 : Z.log2 (Z.pos p) < 53) by (apply Z.log2_lt_pow2; lia).
  pose proof (Z.log2_nonneg (Z.pos p)) as Hl0.
  rewrite digits2_log2. unfold fexp, emin, shl_align.
  rewrite Z.max_l by lia.
  destruct (Z.log2 (Z.pos p) + 1 + 0 - 53 - 0) as [|d|d] eqn:Hd; [|lia|].
  - assert (Hk : Z.log2 (Z.pos p) + 1 - 53 = 0) by lia.
    rewrite binary_round_aux_exact by lia.
    rewrite Hk. change (rne (Z.pos p) 0) with (Z.pos p). cbv zeta.
    assert (Hlt : 2 ^ 52 <= Z.pos p < 2 ^ 53).
    { replace (Z.log2 (Z.pos p)) with 52 in Hlog by lia. exact Hlog. }
    destruct (Z.eqb_spec (Z.pos p) (2 ^ 53)); [lia|].
    cbn. eexists _, _. split; [reflexivity|]. lia.
  - set (mz := Pos.iter xO p d).
    assert (Hmz : Z.pos mz = Z.pos p * 2 ^ Z.pos d) by apply iter_xO.
    assert (Hd' : Z.pos d = 52 - Z.log2 (Z.pos p)) by lia.
    assert (Hlt : 2 ^ 52 <= Z.pos mz < 2 ^ 53).
    { rewrite Hmz.
      replace 52 with (Z.log2 (Z.pos p) + Z.pos d) at 1 by lia.
      replace 53 with (Z.succ (Z.log2 (Z.pos p)) + Z.pos d) by lia.
      rewrite !Z.pow_add_r by lia.
      assert (0 < 2 ^ Z.pos d) by (apply Z.pow_pos_nonneg; lia). nia. }
    assert (Hlz : Z.log2 (Z.pos mz) = 52) by (apply Z.log2_unique; lia).
    rewrite binary_round_aux_exact by (rewrite Hlz; lia).
    rewrite Hlz. change (52 + 1 - 53) with 0.
    change (rne (Z.pos mz) 0) with (Z.pos mz). cbv zeta.
    destruct (Z.eqb_spec (Z.pos mz) (2 ^ 53)); [lia|].
    destruct (Z.leb_spec (Z.log2 (Z.pos p) + 1 + 0 - 53 + 0) 971); [|lia].
    eexists _, _. split; [reflexivity|]. cbn [Z.to_pos].
    split; [lia|]. split; [lia|].
    rewrite Hmz. f_equal. f_equal. lia.
Qed.

(** The product with a fraction in [0.5, 1), with the rounding grid made
    explicit: the numerator [V] is the multiple of [2^k] nearest to the
    exact product [M] of the mantissas. *)
Lemma mul_fraction_grid mx ex mc :
  2 ^ 52 <= Z.pos mx < 2 ^ 53 -> -52 <= ex <= 11 ->
  2 ^ 52 <= Z.pos mc < 2 ^ 53 ->
  exists g k,
    int_of_float (float_mul (S754_finite false mx ex) (S754_finite false mc (-53)))
    = Ok ((g * 2 ^ k) / 2 ^ (53 - ex))
    /\ 52 <= k <= 53
    /\ 2 ^ 52 * 2 ^ k <= Z.pos mx * Z.pos mc < 2 ^ 53 * 2 ^ k
    /\ 2 * Z.abs (g * 2 ^ k - Z.pos mx * Z.pos mc) <= 2 ^ k.
Proof.
  intros Hmx Hex Hmc.
  unfold float_mul, SFmul. cbn [xorb].
  rewrite Pos2Z.inj_mul.
  remember (Z.pos mx * Z.pos mc) as M eqn:HMdef.
  assert (HM : 2 ^ 104 <= M < 2 ^ 106) by (subst M; nia).
  pose proof (Z.log2_spec M ltac:(lia)) as Hlog.
  assert (Hl1 : 104 <= Z.log2 M) by (apply Z.log2_le_pow2; lia).
  assert (Hl2 : Z.log2 M < 106) by (apply Z.log2_lt_pow2; lia).
  set (k := Z.log2 M + 1 - 53).
  assert (Hk : 52 <= k <= 53) by (subst k; lia).
  assert (Hrange : 2 ^ (52 + k) <= M < 2 ^ (53 + k)).
  { subst k. replace (52 + (Z.log2 M + 1 - 53)) with (Z.log2 M) by lia.
    replace (53 + (Z.log2 M + 1 - 53)) with (Z.succ (Z.log2 M)) by lia.
    exact Hlog. }
  pose proof (rne_range M k ltac:(lia) Hrange) as Hq.
  pose proof (rne_error M k ltac:(lia) ltac:(lia)) as Herr.
  assert (Hpk : 0 < 2 ^ k) by (apply Z.pow_pos_nonneg; lia).
  exists (rne M k), k. split; [|split; [exact Hk|split; [|exact Herr]]].
  - clear HMdef. destruct M as [|pm|pm]; try lia.
    rewrite (binary_round_aux_exact false pm (ex + -53)) by (fold k; lia).
    fold k. cbv zeta.
    destruct (Z.eqb_spec (rne (Z.pos pm) k) (2 ^ 53)) as [Heq|Hne].
    + destruct (Z.leb_spec (ex + -53 + k + 1) 971); [|lia].
      cbn [int_of_float]. f_equal.
      rewrite (trunc_scaled _ _ (53 - ex)) by lia.
      f_equal. rewrite Heq.
      replace (ex + -53 + k + 1 + (53 - ex)) with (Z.succ k) by lia.
      rewrite Z.pow_succ_r by lia. change (Z.pos (Z.to_pos (2 ^ 52))) with (2 ^ 52).
      change (2 ^ 53) with (2 ^ 52 * 2). lia.
    + destruct (Z.leb_spec (ex + -53 + k) 971); [|lia].
      cbn [int_of_float]. f_equal.
      rewrite (trunc_scaled _ _ (53 - ex)) by lia.
      f_equal. rewrite Z2Pos.id by lia.
      f_equal. f_equal. lia.
  - rewrite !Z.pow_add_r in Hrange by lia. exact Hrange.
Qed.


(** [int(n * c)] is the floor of [p * n / q] when the double [c] is close
    enough to [p / q] and [n] is small enough for the two rounding errors
    not to reach the next integer. *)
Lemma int_times_float_floor n mc p q :
  0 < q -> 0 <= p -> 1 <= n < 2 ^ 53 ->
  2 ^ 52 <= Z.pos mc < 2 ^ 53 ->
  q * ((2 ^ 53 + 1) * (n * Z.pos mc)) < (p * n + 1) * 2 ^ 106 ->
  (p * 2 ^ 53 - q * Z.pos mc) * 2 ^ 54 <= q * Z.pos mc ->
  int_times_float n (S754_finite false mc (-53)) = Ok (p * n / q).
Proof.
  intros Hq Hp Hn Hmc Hup Hlo.
  destruct (float_of_int_exact n Hn) as (mx & ex & Hf & Hmx & Hex & Hval).
  unfold int_times_float. rewrite Hf. cbn [rbind].
  destruct (mul_fraction_grid mx ex mc Hmx ltac:(lia) Hmc)
    as (g & k & -> & Hk & HM & Herr).
  f_equal.
  replace (53 - ex) with (53 + - ex) by lia.
  rewrite Z.pow_add_r by lia.
  set (E := 2 ^ (- ex)) in *.
  assert (HE : 0 < E) by (apply Z.pow_pos_nonneg; lia).
  set (P := 2 ^ k) in *.
  assert (HP : 0 < P) by (apply Z.pow_pos_nonneg; lia).
  set (R := 2 ^ (53 - k)).
  assert (HR : 0 < R) by (apply Z.pow_pos_nonneg; lia).
  assert (HPR : R * P = 2 ^ 53).
  { subst R P. rewrite <- Z.pow_add_r by lia. f_equal. lia. }
  set (c := Z.pos mc) in *.
  rewrite Hval in HM, Herr.
  set (kk := p * n / q).
  assert (Hkk : q * kk <= p * n < q * kk + q).
  { pose proof (Z.div_mod (p * n) q ltac:(lia)) as Hdm.
    pose proof (Z.mod_pos_bound (p * n) q Hq). subst kk. lia. }
  symmetry. apply Z.div_unique with (r := g * P - 2 ^ 53 * E * kk); [|lia].
  left.
  assert (Hg : 0 <= g) by nia.
  split.
  - (* lower bound *)
    assert (Ht : q * ((kk * 2 ^ 53 - n * c) * 2 ^ 54) <= q * (n * c)).
    { assert (q * (kk * 2 ^ 53 - n * c) <= n * (p * 2 ^ 53 - q * c)) by nia.
      assert (n * ((p * 2 ^ 53 - q * c) * 2 ^ 54) <= n * (q * c))
        by (apply Z.mul_le_mono_nonneg_l; lia).
      nia. }
    apply Z.mul_le_mono_pos_l in Ht; [|exact Hq].
    destruct (Z_lt_le_dec g (kk * E * R)) as [Hlt|Hge].
    + exfalso.
      assert (H1 : g * P + P <= kk * E * R * P) by nia.
      assert (H2 : kk * E * R * P = kk * E * 2 ^ 53) by (rewrite <- HPR; ring).
      assert (H3 : 2 * (n * E * c) <= 2 * (g * P) + P) by lia.
      assert (H4 : P <= 2 * (E * (kk * 2 ^ 53 - n * c))) by nia.
      assert (H5 : n * E * c < 2 ^ 53 * P) by lia.
      assert (H6 : E * (n * c) < E * (2 ^ 54 * (kk * 2 ^ 53 - n * c))) by nia.
      apply Z.mul_lt_mono_pos_l in H6; [|exact HE]. lia.
    + assert (kk * E * R * P <= g * P) by nia.
      assert (H2 : kk * E * R * P = 2 ^ 53 * E * kk) by (rewrite <- HPR; ring).
      lia.
  - (* upper bound *)
    destruct (Z_lt_le_dec g ((kk + 1) * E * R)) as [Hlt|Hge].
    + assert (g * P < (kk + 1) * E * R * P) by nia.
      assert (H2 : (kk + 1) * E * R * P = 2 ^ 53 * E * (kk + 1))
        by (rewrite <- HPR; ring).
      lia.
    + exfalso.
      assert (H1 : (kk + 1) * E * R * P <= g * P) by nia.
      assert (H2 : (kk + 1) * E * R * P = (kk + 1) * E * 2 ^ 53)
        by (rewrite <- HPR; ring).
      assert (H3 : 2 * (g * P) <= 2 * (n * E * c) + P) by lia.
      assert (H4 : 2 ^ 52 * P <= n * E * c) by lia.
      assert (H5 : E * (2 ^ 106 * (kk + 1)) <= E * ((2 ^ 53 + 1) * (n * c)))
        by nia.
      apply Z.mul_le_mono_pos_l in H5; [|exact HE].
      assert (H6 : q * (2 ^ 106 * (kk + 1)) <= q * ((2 ^ 53 + 1) * (n * c)))
        by (apply Z.mul_le_mono_nonneg_l; lia).
      nia.
Qed.

(** The boundaries of the default split are the integer parts of
    8n/10, 9n/10 and 99n/100, for every length below [2^46]. *)
Lemma default_split_exact n :
  0 <= n < 2 ^ 46 ->
  int_times_float n zero = Ok 0
  /\ int_times_float n lit_0_8 = Ok (8 * n / 10)
  /\ int_times_float n lit_0_9 = Ok (9 * n / 10)
  /\ int_times_float n lit_0_99 = Ok (99 * n / 100).
Proof.
  intros Hn. split; [apply int_times_float_zero; lia|].
  destruct (Z.eq_dec n 0) as [->|Hz]; [repeat split; reflexivity|].
  repeat split; apply int_times_float_floor; lia.
Qed.

Lemma slice_length {A} (l : list A) a b :
  0 <= a <= b -> b <= Z.of_nat (length l) ->
  Z.of_nat (length (slice l a b)) = b - a.
Proof.
  intros Hab Hb. unfold slice, adjust_index.
  destruct (Z.ltb_spec a 0) as [?|_]; [lia|].
  destruct (Z.ltb_spec b 0) as [?|_]; [lia|].
  rewrite length_take, length_drop. lia.
Qed.

Lemma slice_empty {A} (l : list A) a b :
  0 <= a <= b -> b <= Z.of_nat (length l) ->
  slice l a b = [] <-> a = b.
Proof.
  intros Hab Hb. pose proof (slice_length l a b Hab Hb) as Hlen.
  split.
  - intros E. rewrite E in Hlen. cbn in Hlen. lia.
  - intros E. destruct (slice l a b); [reflexivity|]. cbn in Hlen. lia.
Qed.

Section Default.
Variable ext : Externals.

(** X1.  For every list of fewer than [2^46] song folders the three
    boundaries that [generate_datasets] computes with the default
    [data_split] are the integer parts of [8N/10], [9N/10] and [99N/100]:
    the binary64 products [N * 0.8], [N * 0.9] and [N * 0.99] never
    round across an integer, and the loop runs on the slices between
    these boundaries. *)
Theorem default_split_boundaries_exact (songs : list string) :
  Z.of_nat (length songs) < 2 ^ 46 ->
  let n := Z.of_nat (length songs) in
  int_times_float n zero = Ok 0
  /\ int_times_float n lit_0_8 = Ok (8 * n / 10)
  /\ int_times_float n lit_0_9 = Ok (9 * n / 10)
  /\ int_times_float n lit_0_99 = Ok (99 * n / 100)
  /\ forall w,
       generate_datasets ext songs default_config w
       = ((emit (Processing Train) ;;;
           process_split ext Train (slice songs 0 (8 * n / 10))
             default_config) ;;;
          (emit (Processing Val) ;;;
           process_split ext Val (slice songs (8 * n / 10) (9 * n / 10))
             default_config) ;;;
          (emit (Processing Test) ;;;
           process_split ext Test (slice songs (9 * n / 10) (99 * n / 100))
             default_config) ;;;
          ret tt) w.
Proof.
  intros Hlen n.
  destruct (default_split_exact n ltac:(subst n; lia)) as (H0 & H1 & H2 & H3).
  do 4 (split; [assumption|]).
  now apply generate_datasets_default_unfold.
Qed.

(** X2.  Sizes of the default splits of [N] folders ([N] below
    [2^46]): train has [8N/10] folders, val [9N/10 - 8N/10], test
    [99N/100 - 9N/10] (integer divisions); the folders after the last
    boundary, which are in no split, number [(N + 99) / 100], so at least
    one folder of every non-empty list is never used.  The train slice is
    empty exactly for [N <= 1], the val slice for [N <= 5] and the test
    slice for [N <= 10]. *)
Theorem default_split_sizes (songs : list string) :
  Z.of_nat (length songs) < 2 ^ 46 ->
  let n := Z.of_nat (length songs) in
  exists a1 a2 a3,
    let train := slice songs 0 a1 in
    let val := slice songs a1 a2 in
    let test := slice songs a2 a3 in
    int_times_float n lit_0_8 = Ok a1
    /\ int_times_float n lit_0_9 = Ok a2
    /\ int_times_float n lit_0_99 = Ok a3
    /\ Z.of_nat (length train) = 8 * n / 10
    /\ Z.of_nat (length val) = 9 * n / 10 - 8 * n / 10
    /\ Z.of_nat (length test) = 99 * n / 100 - 9 * n / 10
    /\ Z.of_nat (length (skipn (Z.to_nat a3) songs)) = (n + 99) / 100
    /\ (train = [] <-> n <= 1)
    /\ (val = [] <-> n <= 5)
    /\ (test = [] <-> n <= 10).
Proof.
  intros Hlen n.
  destruct (default_split_exact n ltac:(subst n; lia)) as (H0 & H1 & H2 & H3).
  exists (8 * n / 10), (9 * n / 10), (99 * n / 100). cbv zeta.
  do 3 (split; [assumption|]).
  assert (Hn : 0 <= n) by (subst n; lia).
  assert (B1 : 0 <= 8 * n / 10 <= 9 * n / 10)
    by (Z.div_mod_to_equations; lia).
  assert (B2 : 9 * n / 10 <= 99 * n / 100) by (Z.div_mod_to_equations; lia).
  assert (B3 : 99 * n / 100 <= n) by (Z.div_mod_to_equations; lia).
  fold n in B3.
  split; [rewrite slice_length by (fold n; lia); lia|].
  split; [rewrite slice_length by (fold n; lia); lia|].
  split; [rewrite slice_length by (fold n; lia); lia|].
  split.
  { rewrite length_drop. fold n. Z.div_mod_to_equations; lia. }
  split; [|split].
  - rewrite slice_empty by (fold n; lia). Z.div_mod_to_equations; lia.
  - rewrite slice_empty by (fold n; lia). Z.div_mod_to_equations; lia.
  - rewrite slice_empty by (fold n; lia). Z.div_mod_to_equations; lia.
Qed.

Lemma all_failed_nil config : all_failed ext [] config.
Proof. intros i s H. discriminate. Qed.

Lemma process_split_no_folders phase config w :
  process_split ext phase [] config w
  = (Ok tt, add_events w (dataframe_events config []
                          ++ [Warning CollectedZeroSongs;
                              Warning (SkippedDataset phase)])).
Proof.
  rewrite (process_split_none ext phase [] config w _
             (songs2dataset_all_failed ext [] config w (all_failed_nil config))).
  rewrite add_events_app, <- app_assoc. reflexivity.
Qed.

(** X3.  With at most one song folder and the default configuration
    [generate_datasets] builds nothing: the three slices are empty,
    every phase is skipped with its two warnings, the call returns
    normally and neither a dataset file nor the statistics file is
    written, whatever the collaborators do. *)
Theorem single_song_gives_no_dataset (songs : list string) (w : World) :
  (length songs <= 1)%nat ->
  generate_datasets ext songs default_config w
  = (Ok tt,
     add_events w
       [Processing Train; CreateDataframe [];
        Warning CollectedZeroSongs; Warning (SkippedDataset Train);
        Processing Val; CreateDataframe [];
        Warning CollectedZeroSongs; Warning (SkippedDataset Val);
        Processing Test; CreateDataframe [];
        Warning CollectedZeroSongs; Warning (SkippedDataset Test)])
  /\ datasets (snd (generate_datasets ext songs default_config w)) = datasets w
  /\ stats_file (snd (generate_datasets ext songs default_config w))
     = stats_file w.
Proof.
  intros Hlen.
  assert (E : generate_datasets ext songs default_config w
              = (Ok tt,
                 add_events w
                   [Processing Train; CreateDataframe [];
                    Warning CollectedZeroSongs; Warning (SkippedDataset Train);
                    Processing Val; CreateDataframe [];
                    Warning CollectedZeroSongs; Warning (SkippedDataset Val);
                    Processing Test; CreateDataframe [];
                    Warning CollectedZeroSongs; Warning (SkippedDataset Test)])).
  { destruct songs as [|s [|s' rest]]; [| |cbn in Hlen; lia].
    - rewrite (generate_datasets_default_unfold ext [] 0 0 0)
        by reflexivity.
      change (slice [] 0 0) with (@nil string).
      unfold bind. rewrite !emit_add_events, !process_split_no_folders.
      cbn. unfold add_events. cbn. rewrite <- !app_assoc. reflexivity.
    - rewrite (generate_datasets_default_unfold ext [s] 0 0 0)
        by (vm_compute; reflexivity).
      change (slice [s] 0 0) with (@nil string).
      unfold bind. rewrite !emit_add_events, !process_split_no_folders.
      cbn. unfold add_events. cbn. rewrite <- !app_assoc. reflexivity. }
  rewrite E. repeat split.
Qed.

End Default.

Lemma default_split_boundaries_exact_witness :
  Z.of_nat (length Sample.ten_songs) < 2 ^ 46
  /\ int_times_float 10 lit_0_99 = Ok 9.
Proof.
  split; [reflexivity|].
  exact (proj1 (proj2 (proj2 (proj2
    (default_split_boundaries_exact Sample.externals Sample.ten_songs eq_refl))))).
Defined.

Lemma default_split_sizes_witness :
  Z.of_nat (length Sample.ten_songs) < 2 ^ 46
  /\ exists a1 a2 a3,
       int_times_float 10 lit_0_8 = Ok a1
       /\ int_times_float 10 lit_0_9 = Ok a2
       /\ int_times_float 10 lit_0_99 = Ok a3
       /\ Z.of_nat (length (slice Sample.ten_songs a2 a3)) = 0.
Proof.
  split; [reflexivity|].
  destruct (default_split_sizes Sample.ten_songs eq_refl)
    as (a1 & a2 & a3 & H1 & H2 & H3 & _ & _ & Ht & _).
  exists a1, a2, a3. repeat split; assumption.
Defined.

Lemma single_song_gives_no_dataset_witness :
  (length ["only"]%string <= 1)%nat
  /\ fst (generate_datasets Sample.externals ["only"]%string default_config
            Sample.empty_world) = Ok tt.
Proof.
  split; [apply le_n|].
  rewrite (proj1 (single_song_gives_no_dataset Sample.externals ["only"]%string
                    Sample.empty_world (le_n 1))).
  reflexivity.
Defined.

End SplitSizes.

(** ** Dataset files: what a run writes and what [load_datasets] reads *)

Module LoadFacts.
Import PyFloat PyList Discovery Frame Types Api Load RunByHand.
Import Splits AssemblyFacts SplitSizes.

Lemma written_app es es' : written (es ++ es') = written es ++ written es'.
Proof. apply omap_app. Qed.

Lemma writes_within_ret {A} ps (a : A) : writes_within ps (ret a).
Proof.
  intros w. exists []. cbn. rewrite app_nil_r.
  repeat split. apply sublist_nil_l.
Qed.

Lemma writes_within_lift {A} ps (r : result A) : writes_within ps (lift r).
Proof. apply (writes_within_ret ps tt). Qed.

Lemma writes_within_raise {A} ps e : writes_within ps (@raise A e).
Proof. apply (writes_within_ret ps tt). Qed.

Lemma writes_within_emit ps e : written [e] = [] -> writes_within ps (emit e).
Proof.
  intros He w. exists [e]. cbn [emit snd trace datasets]. rewrite He.
  repeat split. apply sublist_nil_l.
Qed.

Lemma writes_within_weaken {A} ps ps' (m : M A) :
  ps `sublist_of` ps' -> writes_within ps m -> writes_within ps' m.
Proof.
  intros Hs Hm w. destruct (Hm w) as (es & Ht & Hd & Hp).
  exists es. repeat split; try assumption. now transitivity ps.
Qed.

Lemma writes_within_bind {A B} ps1 ps2 (m : M A) (k : A -> M B) :
  writes_within ps1 m -> (forall a, writes_within ps2 (k a)) ->
  writes_within (ps1 ++ ps2) (bind m k).
Proof.
  intros Hm Hk w. unfold bind. destruct (Hm w) as (es & Ht & Hd & Hp).
  destruct (m w) as [[a|e] w1]; cbn [snd] in *.
  - destruct (Hk a w1) as (es' & Ht' & Hd' & Hp').
    exists (es ++ es'). rewrite Ht', Hd', Ht, Hd, written_app, rev_app_distr.
    rewrite map_app, !app_assoc. repeat split. now apply sublist_app.
  - exists es. repeat split; try assumption.
    now apply sublist_inserts_r.
Qed.

Lemma writes_within_seq {A B} ps (m : M A) (k : A -> M B) :
  writes_within [] m -> (forall a, writes_within ps (k a)) ->
  writes_within ps (bind m k).
Proof. intros Hm Hk. now apply (writes_within_bind [] ps). Qed.

Lemma writes_within_write_stats ps s : writes_within ps (write_stats s).
Proof.
  intros w. exists [WriteStats s]. cbn. repeat split. apply sublist_nil_l.
Qed.

Lemma writes_within_read_stats ps : writes_within ps read_stats.
Proof.
  unfold read_stats. apply writes_within_seq; [now apply writes_within_emit|].
  intros _ w. exists [].
  assert (H : snd (match stats_file w with
                   | Some s => (Ok s, w)
                   | None => (Raise FileNotFoundError, w)
                   end) = w) by (now destruct (stats_file w)).
  rewrite H, app_nil_r. repeat split. apply sublist_nil_l.
Qed.

Lemma writes_within_write_dataset p df : writes_within [p] (write_dataset p df).
Proof.
  intros w. exists [WriteDataset p df]. cbn. repeat split. reflexivity.
Qed.

Lemma writes_within_for_each {A} (f : A -> Phase) (l : list A)
    (body : A -> M unit) :
  (forall x, writes_within [f x] (body x)) ->
  writes_within (map f l) (for_each l body).
Proof.
  intros H. induction l as [|x l IH]; cbn [for_each map].
  - apply writes_within_ret.
  - apply (writes_within_bind [f x] (map f l)); [apply H|]. intros _. exact IH.
Qed.

Lemma zip_fst_sublist {A B} (l : list A) (k : list B) :
  map fst (zip l k) `sublist_of` l.
Proof.
  revert k. induction l as [|x l IH]; intros [|y k]; cbn.
  - constructor.
  - constructor.
  - apply sublist_nil_l.
  - constructor. apply IH.
Qed.

Lemma find_app {A} (f : A -> bool) l1 l2 :
  List.find f (l1 ++ l2)
  = match List.find f l1 with
    | Some x => Some x
    | None => List.find f l2
    end.
Proof.
  induction l1 as [|x l1 IH]; cbn; [reflexivity|].
  now destruct (f x).
Qed.

Lemma phase_eqb_eq a b : phase_eqb a b = true <-> a = b.
Proof. destruct a, b; cbn; split; congruence. Qed.

Lemma elem_of_rev {A} (x : A) l : x ∈ rev l <-> x ∈ l.
Proof. rewrite !list_elem_of_In. symmetry. apply in_rev. Qed.

Lemma find_phase_none (l : list (Phase * DataFrame)) p :
  p ∉ map fst l ->
  List.find (fun item => phase_eqb (fst item) p) l = None.
Proof.
  induction l as [|[q df] l IH]; cbn; [reflexivity|].
  intros Hn. apply not_elem_of_cons in Hn as [Hq Hn].
  destruct (phase_eqb q p) eqn:E; [|now apply IH].
  apply phase_eqb_eq in E. congruence.
Qed.

Lemma find_phase_rev (l : list (Phase * DataFrame)) p df :
  NoDup (map fst l) -> (p, df) ∈ l ->
  List.find (fun item => phase_eqb (fst item) p) (rev l) = Some (p, df).
Proof.
  induction l as [|[q d] l IH]; cbn [map fst rev]; intros Hnd Hin.
  - now apply elem_of_nil in Hin.
  - apply NoDup_cons in Hnd as [Hq Hnd]. rewrite find_app.
    apply elem_of_cons in Hin as [Heq|Hin].
    + injection Heq as <- <-.
      rewrite find_phase_none by (now rewrite map_rev, elem_of_rev).
      cbn. now rewrite (proj2 (phase_eqb_eq p p) eq_refl).
    + now rewrite IH.
Qed.

Lemma read_dataset_unfold p w :
  read_dataset p w
  = (match List.find (fun item => phase_eqb (fst item) p) (datasets w) with
     | Some item => Ok (snd item)
     | None => Raise FileNotFoundError
     end, w).
Proof. unfold read_dataset. now destruct (List.find _ _). Qed.

(** X4.  [load_datasets] never changes a file.  It returns exactly three
    tables, in the order train, val, test, each the table read from the
    file of its phase, or raises FileNotFoundError, and it raises only
    when some phase has no file.  The file of a phase holds the table
    pickled last for it. *)
Theorem load_datasets_all_or_nothing (config : Config) (w : World) :
  snd (load_datasets config w) = w
  /\ ((exists tr va te,
         fst (load_datasets config w) = Ok [tr; va; te]
         /\ fst (read_dataset Train w) = Ok tr
         /\ fst (read_dataset Val w) = Ok va
         /\ fst (read_dataset Test w) = Ok te)
      \/ (fst (load_datasets config w) = Raise FileNotFoundError
          /\ exists p, forall df, (p, df) ∉ datasets w))
  /\ (forall p df rest,
        datasets w = (p, df) :: rest -> fst (read_dataset p w) = Ok df)
  /\ (forall p df,
        fst (read_dataset p w) = Ok df -> (p, df) ∈ datasets w).
Proof.
  assert (Hmiss : forall p,
            List.find (fun item => phase_eqb (fst item) p) (datasets w) = None ->
            forall df, (p, df) ∉ datasets w).
  { intros p Hnone df Hin. apply list_elem_of_In in Hin.
    pose proof (find_none _ _ Hnone _ Hin) as E. cbn in E.
    now rewrite (proj2 (phase_eqb_eq p p) eq_refl) in E. }
  unfold load_datasets, reraise_file_not_found, phases. cbn [comprehension].
  unfold bind, ret. rewrite !read_dataset_unfold. cbn [fst snd].
  split; [|split; [|split]].
  - destruct (List.find _ _) as [a|]; [|reflexivity].
    destruct (List.find _ _) as [b|]; [|reflexivity].
    now destruct (List.find _ _) as [c|].
  - destruct (List.find (fun item => phase_eqb (fst item) Train) _) as [a|] eqn:Ea;
      [|right; split; [reflexivity|]; exists Train; now apply Hmiss].
    destruct (List.find (fun item => phase_eqb (fst item) Val) _) as [b|] eqn:Eb;
      [|right; split; [reflexivity|]; exists Val; now apply Hmiss].
    destruct (List.find (fun item => phase_eqb (fst item) Test) _) as [c|] eqn:Ec;
      [|right; split; [reflexivity|]; exists Test; now apply Hmiss].
    left. exists (snd a), (snd b), (snd c). repeat split.
  - intros p df rest E. rewrite read_dataset_unfold, E. cbn.
    now rewrite (proj2 (phase_eqb_eq p p) eq_refl).
  - intros p df H. rewrite read_dataset_unfold in H. cbn [fst] in H.
    destruct (List.find _ _) as [[q d]|] eqn:E; [|discriminate].
    injection H as <-. apply find_some in E as [Hin Hq]. cbn in Hq.
    apply phase_eqb_eq in Hq as ->. now apply list_elem_of_In.
Qed.

Section WithExternals.
Variable ext : Externals.

Lemma writes_within_df_post_processing df config :
  writes_within [] (df_post_processing ext df config).
Proof.
  intros w. unfold df_post_processing.
  destruct (action_word_model w) as [model|].
  - refine (writes_within_seq [] (lift _) _ (writes_within_lift _ _) _ w).
    intros values. apply writes_within_seq; [apply writes_within_lift|].
    intros words. apply writes_within_seq; [apply writes_within_lift|].
    intros vectors. apply writes_within_ret.
  - refine (writes_within_seq [] (logging_warning _) _ _ _ w).
    + now apply writes_within_emit.
    + intros _. apply writes_within_ret.
Qed.

Lemma writes_within_songs2dataset folders config :
  writes_within [] (songs2dataset ext folders config).
Proof.
  unfold songs2dataset.
  apply writes_within_seq; [now apply writes_within_emit|]. intros _.
  apply writes_within_seq.
  { unfold recalculate_mfcc_df_cache.
    destruct (use_cache _); [apply writes_within_ret|now apply writes_within_emit]. }
  intros _. cbv zeta.
  destruct (length _ =? 0)%nat.
  - apply writes_within_seq; [now apply writes_within_emit|].
    intros _. apply writes_within_ret.
  - apply writes_within_seq; [apply writes_within_df_post_processing|].
    intros df. apply writes_within_ret.
Qed.

Lemma writes_within_process_split phase folders config :
  writes_within [phase] (process_split ext phase folders config).
Proof.
  unfold process_split.
  apply writes_within_seq; [apply writes_within_songs2dataset|].
  intros [df|]; [|now apply writes_within_emit].
  apply writes_within_seq.
  { destruct (check_consistency ext df);
      [apply writes_within_ret|apply writes_within_raise]. }
  intros _. apply writes_within_seq.
  { destruct (phase_eqb phase Train); [|apply writes_within_ret].
    unfold save_normalization_stats.
    apply writes_within_seq; [apply writes_within_lift|]. intros fitted.
    apply writes_within_seq; [apply writes_within_write_stats|].
    intros _. apply writes_within_ret. }
  intros df'. apply writes_within_seq.
  { unfold normalize_columns.
    apply writes_within_seq; [apply writes_within_read_stats|].
    intros stats. apply writes_within_lift. }
  intros df''. apply writes_within_write_dataset.
Qed.

Lemma writes_within_generate_phase songs config item :
  writes_within [fst item] (generate_phase ext songs config item).
Proof.
  destruct item as [phase split]. unfold generate_phase. cbn [fst].
  apply writes_within_seq; [now apply writes_within_emit|]. intros _.
  apply writes_within_seq; [apply writes_within_lift|]. intros a.
  apply writes_within_seq; [apply writes_within_lift|]. intros b.
  apply writes_within_process_split.
Qed.

Lemma writes_within_generate_datasets songs config :
  writes_within phases (generate_datasets ext songs config).
Proof.
  unfold generate_datasets.
  apply writes_within_weaken with (ps := map fst (phase_splits config)).
  - apply zip_fst_sublist.
  - apply writes_within_for_each. apply writes_within_generate_phase.
Qed.

(** X5.  A run of [generate_datasets], with any configuration and
    whether it ends normally or with an exception, pickles at most one
    table per phase, in the order train, val, test, and changes the
    dataset files in no other way.  Reading a phase afterwards gives the
    table pickled in the run; for a phase that the run did not pickle
    (skipped, or not reached) it gives what was there before: the table
    of an earlier run, or FileNotFoundError. *)
Theorem generate_then_read (songs : list string) (config : Config) (w : World) :
  let final := snd (generate_datasets ext songs config w) in
  exists es,
    trace final = trace w ++ es
    /\ datasets final = rev (written es) ++ datasets w
    /\ map fst (written es) `sublist_of` [Train; Val; Test]
    /\ (forall p df,
          (p, df) ∈ written es -> fst (read_dataset p final) = Ok df)
    /\ (forall p,
          p ∉ map fst (written es) ->
          fst (read_dataset p final) = fst (read_dataset p w)).
Proof.
  cbv zeta.
  destruct (writes_within_generate_datasets songs config w)
    as (es & Ht & Hd & Hp).
  exists es. do 3 (split; [assumption|]).
  assert (Hnd : NoDup (map fst (written es))).
  { eapply sublist_NoDup; [|exact Hp]. unfold phases.
    repeat (apply NoDup_cons;
            split; [rewrite ?elem_of_cons, elem_of_nil; intuition discriminate|]).
    apply NoDup_nil_2. }
  split.
  - intros p df Hin. rewrite read_dataset_unfold. cbn [fst].
    rewrite Hd, find_app, (find_phase_rev _ p df Hnd Hin). reflexivity.
  - intros p Hn. rewrite !read_dataset_unfold. cbn [fst].
    rewrite Hd, find_app, find_phase_none; [reflexivity|].
    now rewrite map_rev, elem_of_rev.
Qed.

Lemma writes_within_process_split_nil phase config :
  writes_within [] (process_split ext phase [] config).
Proof.
  intros w.
  rewrite (process_split_none ext phase [] config w _
             (songs2dataset_all_failed ext [] config w (all_failed_nil ext config))).
  rewrite add_events_app. cbn [snd add_events trace datasets].
  exists ((dataframe_events config [] ++ [Warning CollectedZeroSongs])
          ++ [Warning (SkippedDataset phase)]).
  split; [reflexivity|].
  assert (E : written ((dataframe_events config []
                        ++ [Warning CollectedZeroSongs])
                       ++ [Warning (SkippedDataset phase)]) = []).
  { unfold dataframe_events. now destruct (use_cache _). }
  rewrite E. repeat split. reflexivity.
Qed.

(** X6.  [main] with at most ten song folders and no test dataset left by
    an earlier run never gets its three datasets: the test slice
    [songs[int(N*0.9):int(N*0.99)]] is empty, the test phase is skipped,
    and [load_datasets] raises FileNotFoundError, unless
    [generate_datasets] has already raised. *)
Theorem main_needs_eleven_songs (beat_maps_folder : string) (t : tree)
    (w : World) :
  let songs := create_song_list beat_maps_folder t in
  (length songs <= 10)%nat ->
  fst (read_dataset Test w) = Raise FileNotFoundError ->
  fst (main ext beat_maps_folder t w) = Raise FileNotFoundError
  \/ exists e,
       fst (generate_datasets ext songs default_config w) = Raise e
       /\ fst (main ext beat_maps_folder t w) = Raise e.
Proof.
  intros songs Hlen Hno.
  unfold main. fold songs.
  change {| audio_processing := {| use_cache := true |};
            dataset := dataset default_config;
            training := training default_config;
            use_multiprocessing := use_multiprocessing default_config |}
    with default_config.
  set (n := Z.of_nat (length songs)).
  assert (Hn : 0 <= n <= 10) by (subst n; lia).
  destruct (default_split_exact n ltac:(lia)) as (H0 & H1 & H2 & H3).
  assert (E23 : 99 * n / 100 = 9 * n / 10) by (Z.div_mod_to_equations; lia).
  rewrite E23 in H3.
  assert (Hslice : slice songs (9 * n / 10) (9 * n / 10) = []).
  { unfold slice. now rewrite Z.sub_diag. }
  assert (Hw : writes_within [Train; Val]
                 (generate_datasets ext songs default_config)).
  { intros w0.
    rewrite (generate_datasets_default_unfold ext songs _ _ _ H0 H1 H2 H3 w0).
    rewrite Hslice.
    refine (writes_within_bind [Train] [Val] _ _ _ _ w0).
    - apply writes_within_seq; [now apply writes_within_emit|]. intros _.
      apply writes_within_process_split.
    - intros _. apply (writes_within_bind [Val] []).
      + apply writes_within_seq; [now apply writes_within_emit|]. intros _.
        apply writes_within_process_split.
      + intros _. apply writes_within_seq.
        * apply writes_within_seq; [now apply writes_within_emit|]. intros _.
          apply writes_within_process_split_nil.
        * intros _. apply writes_within_ret. }
  unfold bind.
  destruct (Hw w) as (es & Ht & Hd & Hp).
  destruct (generate_datasets ext songs default_config w) as [[[]|e] w1];
    cbn [fst snd] in *; [left|right; exists e; now split].
  unfold load_datasets, reraise_file_not_found, phases. cbn [comprehension].
  unfold bind, ret. rewrite !read_dataset_unfold. cbn [fst snd].
  assert (Hfind : List.find (fun item => phase_eqb (fst item) Test) (datasets w1)
                  = None).
  { rewrite Hd, find_app, find_phase_none.
    - rewrite read_dataset_unfold in Hno. cbn [fst] in Hno.
      now destruct (List.find _ (datasets w)).
    - rewrite map_rev, elem_of_rev. intros Hin.
      pose proof (sublist_submseteq _ _ Hp) as Hsub.
      apply (elem_of_submseteq _ _ _ Hin) in Hsub.
      rewrite !elem_of_cons, elem_of_nil in Hsub. intuition discriminate. }
  rewrite Hfind.
  destruct (List.find (fun item => phase_eqb (fst item) Train) (datasets w1))
    as [a|]; [|reflexivity].
  now destruct (List.find (fun item => phase_eqb (fst item) Val) (datasets w1)).
Qed.

End WithExternals.

Lemma main_needs_eleven_songs_witness :
  (length (create_song_list "/data" SampleRun.two_song_tree) <= 10)%nat
  /\ fst (read_dataset Test Sample.empty_world) = Raise FileNotFoundError
  /\ fst (main SampleRun.externals "/data" SampleRun.two_song_tree
            Sample.empty_world) = Raise FileNotFoundError.
Proof.
  assert (Hlen : (length (create_song_list "/data" SampleRun.two_song_tree)
                  <= 10)%nat) by (vm_compute; lia).
  split; [exact Hlen|]. split; [reflexivity|].
  destruct (main_needs_eleven_songs SampleRun.externals "/data"
              SampleRun.two_song_tree Sample.empty_world Hlen eq_refl)
    as [H|(e & He & _)]; [exact H|].
  vm_compute in He. discriminate He.
Defined.

End LoadFacts.

(** ** The train phase after a successful fit *)

Module TrainFacts.
Import PyFloat Frame Types Api FrameFacts NormalizeFacts FitFacts AssemblyFacts.










Section WithExternals.
Variable ext : Externals.


End WithExternals.


End TrainFacts.

(** ** Recursion of the song discovery, class counts, song tables, boundaries *)

Module MoreDiscoveryFacts.
Import Discovery DiscoveryFacts.





End MoreDiscoveryFacts.

Module ClassCountFacts.
Import Api ClassCounts.

(** X9.  [word_id_num_classes] caches: the attribute is left equal to
    the returned value; a positive attribute is returned as it is,
    whatever the word model file holds; otherwise the value is the
    vocabulary size plus 2 when the model file exists (at least 2) and
    the unchanged attribute when it does not.  Once the value is
    positive every later call returns it, also after the model file
    changed or disappeared.  [num_classes] reports the same value under
    word_id and leaves the same attribute. *)
Theorem word_id_num_classes_cached (stored : Z) (w : World) :
  let value := fst (word_id_num_classes stored w) in
  let attribute := snd (word_id_num_classes stored w) in
  attribute = value
  /\ (0 < stored -> value = stored)
  /\ (stored <= 0 ->
      match action_word_model w with
      | Some model => value = Z.of_nat (length (vocab model)) + 2 /\ 2 <= value
      | None => value = stored
      end)
  /\ (0 < value -> forall w', word_id_num_classes attribute w' = (value, value))
  /\ fst (num_classes stored w) !! "word_id"%string = Some value
  /\ snd (num_classes stored w) = attribute.
Proof.
  cbv zeta. unfold num_classes, word_id_num_classes.
  destruct (Z.gtb_spec stored 0) as [Hpos|Hneg].
  - cbn [fst snd]. repeat split; try reflexivity; try lia.
    intros _ w'. destruct (Z.gtb_spec stored 0); [reflexivity|lia].
  - cbn [fst snd]. destruct (action_word_model w) as [model|].
    + repeat split; try reflexivity; try lia.
      intros Hv w'.
      destruct (Z.gtb_spec (Z.of_nat (length (vocab model)) + 2) 0);
        [reflexivity|lia].
    + repeat split; try reflexivity; try lia.
Qed.

End ClassCountFacts.

Module SongTableFacts.
Import PyFloat PyList Frame Types Api AssemblyFacts RunFacts.


Section WithExternals.
Variable ext : Externals.



End WithExternals.

End SongTableFacts.

Module BoundaryFacts.
Import PyFloat PyList Types Api AssemblyFacts.

Lemma zip_lookup_inv {A B} (l : list A) (k : list B) i x y :
  zip l k !! i = Some (x, y) <-> l !! i = Some x /\ k !! i = Some y.
Proof.
  revert k i. induction l as [|a l IH]; intros [|b k] [|i]; cbn;
    try (split; [discriminate|intros [? ?]; discriminate]).
  - split; [intros [= -> ->]; now split | intros [[= ->] [= ->]]; reflexivity].
  - apply IH.
Qed.

Section WithExternals.
Variable ext : Externals.

(** X11.  For any [data_split], the i-th phase of [generate_datasets]
    pairs the i-th boundary with the next one: there are as many phases
    as there are pairs of neighbouring boundaries, at most three, so
    boundaries after the fourth are ignored and with fewer than two
    boundaries the call returns at once and changes nothing.  A phase
    whose two computed indices are not increasing gets an empty slice and
    is skipped with the two warnings, without an error. *)
Theorem data_split_pairs_of_neighbours (songs : list string) (config : Config)
    (w : World) :
  let ds := data_split (training config) in
  (forall i phase a b,
      phase_splits config !! i = Some (phase, (a, b))
      <-> phases !! i = Some phase /\ ds !! i = Some a /\ ds !! S i = Some b)
  /\ length (phase_splits config) = Nat.min 3 (length ds - 1)
  /\ ((length ds <= 1)%nat -> generate_datasets ext songs config w = (Ok tt, w))
  /\ (forall phase split a b,
        int_times_float (Z.of_nat (length songs)) (fst split) = Ok a ->
        int_times_float (Z.of_nat (length songs)) (snd split) = Ok b ->
        0 <= b <= a ->
        generate_phase ext songs config (phase, split) w
        = (Ok tt,
           add_events w (Processing phase
                         :: dataframe_events config []
                         ++ [Warning CollectedZeroSongs;
                             Warning (SkippedDataset phase)]))).
Proof.
  cbv zeta. unfold phase_splits.
  split; [|split; [|split]].
  - intros i phase a b. rewrite zip_lookup_inv, zip_lookup_inv.
    rewrite lookup_tail. tauto.
  - rewrite !length_zip.
    assert (L : length (tail (data_split (training config)))
                = (length (data_split (training config)) - 1)%nat)
      by (destruct (data_split (training config)); cbn; lia).
    rewrite L. unfold phases. cbn [length]. lia.
  - intros Hlen. unfold generate_datasets, phase_splits.
    destruct (data_split (training config)) as [|d [|d' ds]];
      [reflexivity|reflexivity|cbn in Hlen; lia].
  - intros phase split a b Ha Hb Hab.
    assert (Hslice : slice songs a b = []).
    { unfold slice, adjust_index.
      destruct (Z.ltb_spec a 0) as [?|_]; [lia|].
      destruct (Z.ltb_spec b 0) as [?|_]; [lia|].
      replace (Z.to_nat _) with 0%nat by lia. reflexivity. }
    rewrite (generate_phase_skipped ext songs config phase split a b w Ha Hb);
      rewrite Hslice; [reflexivity|].
    intros i s H. discriminate.
Qed.

End WithExternals.

Lemma data_split_pairs_of_neighbours_witness :
  generate_phase Sample.externals Sample.ten_songs default_config
    (Val, (lit_0_9, lit_0_8)) Sample.empty_world
  = (Ok tt,
     add_events Sample.empty_world
       [Processing Val; CreateDataframe [];
        Warning CollectedZeroSongs; Warning (SkippedDataset Val)]).
Proof.
  apply (proj2 (proj2 (proj2
    (data_split_pairs_of_neighbours Sample.externals Sample.ten_songs
       default_config Sample.empty_world))) Val (lit_0_9, lit_0_8) 9 8).
  - reflexivity.
  - reflexivity.
  - lia.
Defined.

End BoundaryFacts.

(** ** Hyper-parameter evaluation *)

Module ExperimentFacts.
Import PyFloat Experiments.



Section Lab.
Variable param : Type.
Variable str : param -> string.
Variable str_config : gmap string param -> string.
Variable elapsed : nat -> pyfloat.
Variable get_config_model_loss : gmap string param -> option (dict * dict).







Section Loop.
Variable keys : list string.
Variable csv_file test_name : string.
Variable base : gmap string param.


End Loop.



End Lab.



End ExperimentFacts.
